(** * Universal Home Plan Modeler: the editing engine of [src/App.tsx]

    A shallow embedding of the undo/redo store ([useHistory]), the grid
    snap, the view transform and the pointer handlers of the [App]
    component, and of the plan loader ([handleFileChange]), followed by
    the properties of the specification that concern them.

    Conventions of the embedding.
    - A JavaScript [number] is an exact rational ([Q]); [Math.round] is
      [floor (v + 1/2)].  NaN, the infinities and the rounding of binary64
      arithmetic are outside the embedding; numeric results are compared
      with [==] ([Qeq]).
    - React state is passed explicitly: a handler maps the committed state
      of the component to the next one, one event per render.
    - [history[index]] is [undefined] when [index] is out of range.  The
      component cannot render in such a state ([rooms.find] and
      [rooms.map] in the body of [App] throw), so a handler that needs the
      snapshot returns [None] there; [HistoryFacts.reachable_in_range] and
      [Progress.run_total] show that this never happens. *)

From Stdlib Require Import QArith Qround Qminmax Qabs Qfield Lqa.
From stdpp Require Import base option list strings pretty.

(** ** JavaScript numbers *)

Module JS.

Definition number : Type := Q.
Bind Scope Q_scope with number.

(** [Math.round]: the nearest integer, ties towards +infinity. *)
Definition Math_round (v : number) : number := inject_Z (Qfloor (v + (1 # 2))).

Definition Math_min (a b : number) : number := Qmin a b.
Definition Math_max (a b : number) : number := Qmax a b.
Definition Math_abs (a : number) : number := Qabs a.

(** [a < b] and [a >= b] on numbers, as booleans. *)
Definition lt (a b : number) : bool := negb (Qle_bool b a).
Definition ge (a b : number) : bool := Qle_bool b a.

(** [Math.max(...l)] for a non-empty [l = z :: zs]. *)
Definition Math_max_list (z : number) (zs : list number) : number :=
  foldl Math_max z zs.

(** A string is truthy unless it is empty. *)
Definition truthy_string (s : string) : bool :=
  match s with EmptyString => false | _ => true end.

End JS.
Import JS.

(** ** [useHistory] *)

Module History.
Section UseHistory.
Context {T : Type}.

(** The two [useState] cells of the hook. *)
Record t : Type := Build { history : list T; index : nat }.

Definition useHistory (initialState : T) : t :=
  {| history := [initialState]; index := 0 |}.

(** [state: history[index]] *)
Definition state (h : t) : option T := history h !! index h.

(** [React.SetStateAction<T>]: a value or an updater function. *)
Inductive SetStateAction : Type :=
| Value (v : T)
| Updater (f : T -> T).

(** [setState(action, overwrite)].  The updater is called on
    [history[index]]; an overwrite at an index beyond the array (where
    JavaScript would grow the array with holes) is outside the
    embedding, like every out-of-range read. *)
Definition setState (action : SetStateAction) (overwrite : bool) (h : t)
  : option t :=
  newState ← match action with
             | Value v => Some v
             | Updater f => f <$> state h
             end;
  if overwrite then
    if decide (index h < length (history h)) then
      Some {| history := <[index h := newState]> (history h);
              index := index h |}
    else None
  else
    let newHistory := take (S (index h)) (history h) ++ [newState] in
    Some {| history := newHistory; index := length newHistory - 1 |}.

Definition undo (h : t) : t :=
  if decide (0 < index h)
  then {| history := history h; index := index h - 1 |} else h.

Definition redo (h : t) : t :=
  if decide (index h < length (history h) - 1)
  then {| history := history h; index := index h + 1 |} else h.

Definition canUndo (h : t) : bool := bool_decide (0 < index h).
Definition canRedo (h : t) : bool :=
  bool_decide (index h < length (history h) - 1).

(** The states of the hook that calls of [setState], [undo] and [redo]
    can produce from [useHistory init]. *)
Inductive reachable (init : T) : t -> Prop :=
| reach_init : reachable init (useHistory init)
| reach_setState h action overwrite h' :
    reachable init h -> setState action overwrite h = Some h' ->
    reachable init h'
| reach_undo h : reachable init h -> reachable init (undo h)
| reach_redo h : reachable init h -> reachable init (redo h).

(** [index] designates a slot of [history]. *)
Definition in_range (h : t) : Prop := index h < length (history h).

End UseHistory.
Arguments t : clear implicits.
End History.

(** ** The data model ([types.ts]) *)

Module Point.
Record t : Type := Build { x : number; y : number }.
End Point.

Inductive FeatureType : Type := door | window.
Inductive Wall : Type := wall_top | wall_bottom | wall_left | wall_right.

Module WallFeature.
Record t : Type := Build {
  id : string;
  type : FeatureType;
  wall : Wall;
  position : number;    (* 0 to 1, percentage along the wall *)
  width : number;       (* in world units *)
}.
End WallFeature.

Module Room.
Record t : Type := Build {
  id : string;
  x : number;
  y : number;
  width : number;
  height : number;
  name : string;
  color : string;
  zIndex : number;
  features : list WallFeature.t;
  locked : option bool;      (* [locked?: boolean] *)
}.

(** [room.locked] in a condition. *)
Definition is_locked (r : t) : bool :=
  match locked r with Some b => b | None => false end.

(** [{ ...r, x: x', y: y' }] *)
Definition with_xy (r : t) (x' y' : number) : t :=
  {| id := id r; x := x'; y := y'; width := width r; height := height r;
     name := name r; color := color r; zIndex := zIndex r;
     features := features r; locked := locked r |}.

(** [{ ...r, x: x', y: y', width: w', height: h' }] *)
Definition with_rect (r : t) (x' y' w' h' : number) : t :=
  {| id := id r; x := x'; y := y'; width := w'; height := h';
     name := name r; color := color r; zIndex := zIndex r;
     features := features r; locked := locked r |}.
End Room.

(** ** The [App] component *)

Module App.

Definition ROOM_COLORS : list string :=
  [ "#DBEAFE"; "#BFDBFE"; "#93C5FD";
    "#A7F3D0"; "#6EE7B7"; "#34D399";
    "#C7D2FE"; "#A5B4FC"; "#818CF8";
    "#DDD6FE"; "#C4B5FD"; "#A78BFA";
    "#E9D5FF"; "#D8B4FE"; "#C084FC";
    "#FDE68A"; "#FCD34D"; "#FBBF24";
    "#FED7AA"; "#FDBA74"; "#FB923C";
    "#FECACA"; "#FCA5A5"; "#F87171";
    "#FBCFE8"; "#F9A8D4"; "#F472B6";
    "#E5E7EB"; "#D1D5DB"; "#9CA3AF" ]%string.

Definition GRID_SIZE : number := 10%Q.

Definition snapToGrid (value : number) : number :=
  (Math_round (value / GRID_SIZE) * GRID_SIZE)%Q.

Inductive ResizeHandle : Type := top_left | top_right | bottom_left | bottom_right.

Inductive Mode : Type := select | draw.

Inductive ActionType : Type := none | drawing | moving | resizing.

#[global] Instance ActionType_eq_dec : EqDecision ActionType.
Proof. solve_decision. Defined.

(** The [actionState] cell; every field but [type] is optional. *)
Module Action.
Record t : Type := Build {
  type : ActionType;
  startPoint : option Point.t;
  moveOffset : option Point.t;
  targetId : option string;
  isDragging : option bool;
  handle : option ResizeHandle;
}.

(** [{ type: 'none' }] *)
Definition idle : t := Build none None None None None None.

(** [s => ({ ...s, isDragging: true })] *)
Definition dragging (s : t) : t :=
  Build (type s) (startPoint s) (moveOffset s) (targetId s) (Some true) (handle s).

(** [actionState.isDragging] in a condition. *)
Definition is_dragging (s : t) : bool :=
  match isDragging s with Some b => b | None => false end.

(** [actionState.targetId] in a condition: defined and not empty. *)
Definition target (s : t) : option string :=
  match targetId s with
  | Some i => if truthy_string i then Some i else None
  | None => None
  end.
End Action.

Module Transform.
Record t : Type := Build { scale : number; x : number; y : number }.
End Transform.

(** [canvasRef.current.getBoundingClientRect()], the part that is read. *)
Module DOMRect.
Record t : Type := Build { left : number; top : number }.
End DOMRect.

Module MouseEvent.
Record t : Type := Build { button : nat; clientX : number; clientY : number }.
End MouseEvent.

Module WheelEvent.
Record t : Type := Build { clientX : number; clientY : number; deltaY : number }.
End WheelEvent.

(** The state cells and refs of [App]. *)
Record AppState : Type := BuildApp {
  hist : History.t (list Room.t);
  selectedRoomId : option string;
  mode : Mode;
  actionState : Action.t;
  viewTransform : Transform.t;
  isPanning : bool;
  panStartRef : Point.t;
  canvasRef : option DOMRect.t;
  drawingPreview : option (Point.t * Point.t);   (* start, end *)
}.

Definition set_hist (h : History.t (list Room.t)) (st : AppState) : AppState :=
  BuildApp h (selectedRoomId st) (mode st) (actionState st) (viewTransform st)
           (isPanning st) (panStartRef st) (canvasRef st) (drawingPreview st).
Definition setSelectedRoomId (s : option string) (st : AppState) : AppState :=
  BuildApp (hist st) s (mode st) (actionState st) (viewTransform st)
           (isPanning st) (panStartRef st) (canvasRef st) (drawingPreview st).
Definition setMode (m : Mode) (st : AppState) : AppState :=
  BuildApp (hist st) (selectedRoomId st) m (actionState st) (viewTransform st)
           (isPanning st) (panStartRef st) (canvasRef st) (drawingPreview st).
Definition setActionState (a : Action.t) (st : AppState) : AppState :=
  BuildApp (hist st) (selectedRoomId st) (mode st) a (viewTransform st)
           (isPanning st) (panStartRef st) (canvasRef st) (drawingPreview st).
Definition setViewTransform (v : Transform.t) (st : AppState) : AppState :=
  BuildApp (hist st) (selectedRoomId st) (mode st) (actionState st) v
           (isPanning st) (panStartRef st) (canvasRef st) (drawingPreview st).
Definition setIsPanning (b : bool) (st : AppState) : AppState :=
  BuildApp (hist st) (selectedRoomId st) (mode st) (actionState st) (viewTransform st)
           b (panStartRef st) (canvasRef st) (drawingPreview st).
Definition set_panStartRef (p : Point.t) (st : AppState) : AppState :=
  BuildApp (hist st) (selectedRoomId st) (mode st) (actionState st) (viewTransform st)
           (isPanning st) p (canvasRef st) (drawingPreview st).
Definition setDrawingPreview (d : option (Point.t * Point.t)) (st : AppState) : AppState :=
  BuildApp (hist st) (selectedRoomId st) (mode st) (actionState st) (viewTransform st)
           (isPanning st) (panStartRef st) (canvasRef st) d.

Definition initialRooms : list Room.t :=
  [ Room.Build "living-room-1" 50 50 300 200 "Living Room" "#DBEAFE" 0 [] (Some false);
    Room.Build "kitchen-1" 350 50 150 150 "Kitchen" "#BFDBFE" 1 [] (Some false) ].

(** The state of the first render, with the canvas mounted at [rect]. *)
Definition initialApp (rect : option DOMRect.t) : AppState :=
  {| hist := History.useHistory initialRooms;
     selectedRoomId := None;
     mode := select;
     actionState := Action.idle;
     viewTransform := Transform.Build 1 0 0;
     isPanning := false;
     panStartRef := Point.Build 0 0;
     canvasRef := rect;
     drawingPreview := None |}.

(** [const rooms = history[index]] *)
Definition rooms (st : AppState) : option (list Room.t) := History.state (hist st).

(** [setRooms(action, overwrite)] *)
Definition setRooms (action : History.SetStateAction) (overwrite : bool)
    (st : AppState) : option AppState :=
  h ← History.setState action overwrite (hist st); Some (set_hist h st).

(** The viewport point to world point conversion of [getMouseWorldPos]
    and [handleWheel]. *)
Definition toWorld (v : Transform.t) (p : Point.t) : Point.t :=
  {| Point.x := (Point.x p - Transform.x v) / Transform.scale v;
     Point.y := (Point.y p - Transform.y v) / Transform.scale v |}%Q.

Definition getMouseWorldPos (e : MouseEvent.t) (st : AppState) : Point.t :=
  match canvasRef st with
  | None => Point.Build 0 0
  | Some rect =>
      toWorld (viewTransform st)
        {| Point.x := MouseEvent.clientX e - DOMRect.left rect;
           Point.y := MouseEvent.clientY e - DOMRect.top rect |}%Q
  end.

Definition client (e : MouseEvent.t) : Point.t :=
  Point.Build (MouseEvent.clientX e) (MouseEvent.clientY e).

Definition snapPoint (p : Point.t) : Point.t :=
  Point.Build (snapToGrid (Point.x p)) (snapToGrid (Point.y p)).

Definition handleMouseDown (e : MouseEvent.t) (st : AppState) : AppState :=
  if decide (MouseEvent.button e = 1) then
    set_panStartRef (client e) (setIsPanning true st)
  else
    let pos := getMouseWorldPos e st in
    match mode st with
    | draw =>
        let startPoint := snapPoint pos in
        setSelectedRoomId None
          (setDrawingPreview (Some (startPoint, startPoint))
             (setActionState
                (Action.Build drawing (Some startPoint) None None None None) st))
    | select =>
        let st := setSelectedRoomId None st in
        if decide (MouseEvent.button e = 0) then
          set_panStartRef (client e) (setIsPanning true st)
        else st
    end.

(** The result also tells whether [e.stopPropagation()] was called. *)
Definition handleRoomMouseDown (e : MouseEvent.t) (room : Room.t) (st : AppState)
    : AppState * bool :=
  if match mode st with draw => true | select => Room.is_locked room end then
    (st, false)
  else
    (if decide (MouseEvent.button e = 0) then
       let pos := getMouseWorldPos e st in
       setActionState
         (Action.Build moving None
            (Some {| Point.x := Point.x pos - Room.x room;
                     Point.y := Point.y pos - Room.y room |}%Q)
            (Some (Room.id room)) (Some false) None)
         (setSelectedRoomId (Some (Room.id room)) st)
     else st, true).

(** [e.stopPropagation()] is always called here. *)
Definition handleResizeStart (e : MouseEvent.t) (room : Room.t)
    (handle : ResizeHandle) (st : AppState) : AppState :=
  if match mode st with select => false | draw => true end
     || negb (bool_decide (MouseEvent.button e = 0))
     || Room.is_locked room
  then st
  else setActionState
         (Action.Build resizing None None (Some (Room.id room)) (Some false)
            (Some handle)) st.

(** The callback of [prevRooms.map] in the moving branch. *)
Definition moveRoom (targetId : string) (moveOffset pos : Point.t) (r : Room.t)
    : Room.t :=
  if decide (Room.id r = targetId) then
    Room.with_xy r (snapToGrid (Point.x pos - Point.x moveOffset))
                   (snapToGrid (Point.y pos - Point.y moveOffset))
  else r.

(** The callback of [prevRooms.map] in the resizing branch. *)
Definition resizeRoom (targetId : string) (handle : ResizeHandle)
    (snappedPos : Point.t) (r : Room.t) : Room.t :=
  if decide (Room.id r = targetId) then
    let x := Room.x r in
    let y := Room.y r in
    let width := Room.width r in
    let height := Room.height r in
    let right := (x + width)%Q in
    let bottom := (y + height)%Q in
    let '(x, y, width, height) :=
      match handle with
      | top_left =>
          let x := Math_min (Point.x snappedPos) (right - GRID_SIZE) in
          let y := Math_min (Point.y snappedPos) (bottom - GRID_SIZE) in
          (x, y, right - x, bottom - y)
      | top_right =>
          let y := Math_min (Point.y snappedPos) (bottom - GRID_SIZE) in
          let width := Math_max GRID_SIZE (Point.x snappedPos - x) in
          (x, y, width, bottom - y)
      | bottom_left =>
          let x := Math_min (Point.x snappedPos) (right - GRID_SIZE) in
          let height := Math_max GRID_SIZE (Point.y snappedPos - y) in
          (x, y, right - x, height)
      | bottom_right =>
          (x, y, Math_max GRID_SIZE (Point.x snappedPos - x),
                 Math_max GRID_SIZE (Point.y snappedPos - y))
      end%Q in
    Room.with_rect r (Math_round x) (Math_round y)
                     (Math_round width) (Math_round height)
  else r.

Definition handleMouseMove (e : MouseEvent.t) (st : AppState) : option AppState :=
  if isPanning st then
    let dx := (MouseEvent.clientX e - Point.x (panStartRef st))%Q in
    let dy := (MouseEvent.clientY e - Point.y (panStartRef st))%Q in
    let prev := viewTransform st in
    Some (set_panStartRef (client e)
            (setViewTransform
               (Transform.Build (Transform.scale prev)
                  (Transform.x prev + dx) (Transform.y prev + dy))%Q st))
  else
    let a := actionState st in
    let drag st := if Action.is_dragging a then st
                   else setActionState (Action.dragging a) st in
    let pos := getMouseWorldPos e st in
    match Action.type a, Action.target a, Action.moveOffset a, Action.handle a with
    | none, _, _, _ => Some st
    | moving, Some targetId, Some moveOffset, _ =>
        setRooms (History.Updater (map (moveRoom targetId moveOffset pos))) true
                 (drag st)           (* Overwrite history while dragging *)
    | drawing, _, _, _ =>
        let snappedEnd := snapPoint pos in
        Some (setDrawingPreview
                (match drawingPreview st with
                 | Some (start, _) => Some (start, snappedEnd)
                 | None => None
                 end) st)
    | resizing, Some targetId, _, Some handle =>
        let snappedPos := snapPoint pos in
        setRooms (History.Updater (map (resizeRoom targetId handle snappedPos))) true
                 (drag st)
    | _, _, _, _ => Some st
    end.

(** The room that a completed draw gesture proposes; [uuid] is the value
    of [crypto.randomUUID()]. *)
Definition newRoom (uuid : string) (rooms : list Room.t)
    (startPoint snappedEnd : Point.t) : Room.t :=
  let maxZ := match Room.zIndex <$> rooms with
              | [] => (-1)%Q
              | z :: zs => Math_max_list z zs
              end in
  {| Room.id := uuid;
     Room.name := "Room " +:+ pretty (length rooms + 1);
     Room.x := Math_min (Point.x startPoint) (Point.x snappedEnd);
     Room.y := Math_min (Point.y startPoint) (Point.y snappedEnd);
     Room.width := Math_abs (Point.x startPoint - Point.x snappedEnd);
     Room.height := Math_abs (Point.y startPoint - Point.y snappedEnd);
     Room.color := default ""%string
                     (ROOM_COLORS !! (length rooms `mod` length ROOM_COLORS));
     Room.zIndex := (maxZ + 1)%Q;
     Room.features := [];
     Room.locked := Some false |}.

(** [handleMouseUp], also the [onMouseLeave] handler of the canvas.  The
    three tests on [actionState.type] exclude each other, so at most one
    of the calls of [setRooms] is made, on the history of the render. *)
Definition handleMouseUp (e : MouseEvent.t) (uuid : string) (st : AppState)
    : option AppState :=
  rooms ← rooms st;
  let a := actionState st in
  let st1 := if isPanning st then setIsPanning false st else st in
  st2 ← (if bool_decide (Action.type a = moving) && Action.is_dragging a
         then setRooms (History.Value rooms) false st1 else Some st1);
  st3 ← (if bool_decide (Action.type a = resizing) && Action.is_dragging a
         then setRooms (History.Value rooms) false st2 else Some st2);
  st4 ← match Action.type a, Action.startPoint a with
        | drawing, Some startPoint =>
            let snappedEnd := snapPoint (getMouseWorldPos e st) in
            let newRoom := newRoom uuid rooms startPoint snappedEnd in
            st' ← (if ge (Room.width newRoom) GRID_SIZE
                      && ge (Room.height newRoom) GRID_SIZE
                   then st' ← setRooms (History.Updater (λ prev, prev ++ [newRoom]))
                                       false st3;
                        Some (setSelectedRoomId (Some (Room.id newRoom)) st')
                   else Some st3);
            Some (setMode select (setDrawingPreview None st'))
        | _, _ => Some st3
        end;
  Some (setActionState Action.idle st4).

Definition handleWheel (e : WheelEvent.t) (st : AppState) : AppState :=
  match canvasRef st with
  | None => st
  | Some rect =>
      let v := viewTransform st in
      let mouseX := (WheelEvent.clientX e - DOMRect.left rect)%Q in
      let mouseY := (WheelEvent.clientY e - DOMRect.top rect)%Q in
      let zoomFactor : number := 11 # 10 in
      let newScale := if lt (WheelEvent.deltaY e) 0%Q
                      then (Transform.scale v * zoomFactor)%Q
                      else (Transform.scale v / zoomFactor)%Q in
      let clampedScale := Math_max (2 # 10) (Math_min newScale 5%Q) in
      let worldX := ((mouseX - Transform.x v) / Transform.scale v)%Q in
      let worldY := ((mouseY - Transform.y v) / Transform.scale v)%Q in
      let newX := (mouseX - worldX * clampedScale)%Q in
      let newY := (mouseY - worldY * clampedScale)%Q in
      setViewTransform (Transform.Build clampedScale newX newY) st
  end.

(** [undo] and [redo] of the toolbar. *)
Definition undo (st : AppState) : AppState := set_hist (History.undo (hist st)) st.
Definition redo (st : AppState) : AppState := set_hist (History.redo (hist st)) st.

End App.

(** ** Pointer events and their dispatch *)

Module Pointer.
Import App.

(** What the rendering layer reports: a pointer-down lands on the empty
    canvas, on the body of a rendered room or on a corner handle of one. *)
Inductive Event : Type :=
| MouseDownCanvas (e : MouseEvent.t)
| MouseDownRoom (e : MouseEvent.t) (room : Room.t)
| MouseDownHandle (e : MouseEvent.t) (room : Room.t) (handle : ResizeHandle)
| MouseMove (e : MouseEvent.t)
| MouseUp (e : MouseEvent.t) (uuid : string)     (* also [onMouseLeave] *)
| Wheel (e : WheelEvent.t).

(** A pointer-down on a room body runs [handleRoomMouseDown] and then, as
    the event bubbles to the canvas, [handleMouseDown], unless propagation
    was stopped.  A handle is a child of the room, and
    [handleResizeStart] always stops the propagation. *)
Definition step (ev : Event) (st : AppState) : option AppState :=
  match ev with
  | MouseDownCanvas e => Some (handleMouseDown e st)
  | MouseDownRoom e room =>
      let '(st', stopped) := handleRoomMouseDown e room st in
      Some (if stopped then st' else handleMouseDown e st')
  | MouseDownHandle e room handle => Some (handleResizeStart e room handle st)
  | MouseMove e => handleMouseMove e st
  | MouseUp e uuid => handleMouseUp e uuid st
  | Wheel e => Some (handleWheel e st)
  end.

Fixpoint run (evs : list Event) (st : AppState) : option AppState :=
  match evs with
  | [] => Some st
  | ev :: evs => st' ← step ev st; run evs st'
  end.



End Pointer.

(** ** Loading a plan: the [reader.onload] callback of [handleFileChange] *)

Module Json.

(** A value that [JSON.parse] returns.  The callback reads such values to
    a fixed depth, so no induction principle is generated. *)
#[local] Unset Elimination Schemes.
Inductive value : Type :=
| Null
| Bool (b : bool)
| Num (q : number)
| Str (s : string)
| Arr (l : list value)
| Obj (fields : list (string * value)).
#[local] Set Elimination Schemes.

(** [o.k] for an object with the own properties [fields]; [None] is
    [undefined]. *)
Fixpoint get (k : string) (fields : list (string * value)) : option value :=
  match fields with
  | [] => None
  | (k', v) :: fields => if decide (k = k') then Some v else get k fields
  end.

End Json.

Module Load.
Import App.

(** The outcome of evaluating an expression of the callback: a value, an
    exception (caught by the [catch] of the callback), or [Untyped]: a
    field holds a value of another type than the interfaces [Room] and
    [WallFeature] declare, where the typed embedding does not follow the
    program (and so asserts nothing). *)
Inductive result (A : Type) : Type :=
| Ok (a : A)
| Throw
| Untyped.
Arguments Ok {A} a.
Arguments Throw {A}.
Arguments Untyped {A}.

#[global] Instance result_bind : MBind result := λ A B f r,
  match r with Ok a => f a | Throw => Throw | Untyped => Untyped end.

(** ['k' in r], for the keys that the callback asks for: none of them is
    a property of an array or of [Object.prototype]; on a primitive value
    the operator throws a [TypeError]. *)
Definition js_in (k : string) (r : Json.value) : result bool :=
  match r with
  | Json.Obj fields => Ok (bool_decide (k ∈ fields.*1))
  | Json.Arr _ => Ok false
  | _ => Throw
  end.

(** [a && b] *)
Definition and_then (a b : result bool) : result bool :=
  x ← a; if x : bool then b else Ok false.

(** The callback of [loadedRooms.every]. *)
Definition isRoomRecord (r : Json.value) : result bool :=
  and_then (js_in "id" r) (and_then (js_in "name" r) (and_then (js_in "x" r)
  (and_then (js_in "y" r) (and_then (js_in "width" r) (and_then (js_in "height" r)
  (and_then (js_in "color" r) (js_in "zIndex" r))))))).

(** [l.every(p)] *)
Fixpoint every (p : Json.value -> result bool) (l : list Json.value) : result bool :=
  match l with
  | [] => Ok true
  | r :: l => b ← p r; if b : bool then every p l else Ok false
  end.

(** [l.map(f)] *)
Fixpoint traverse {A : Type} (f : Json.value -> result A) (l : list Json.value)
    : result (list A) :=
  match l with
  | [] => Ok []
  | r :: l => a ← f r; as' ← traverse f l; Ok (a :: as')
  end.

Definition asNumber (v : option Json.value) : result number :=
  match v with Some (Json.Num q) => Ok q | _ => Untyped end.

Definition asString (v : option Json.value) : result string :=
  match v with Some (Json.Str s) => Ok s | _ => Untyped end.

Definition asFeatureType (v : option Json.value) : result FeatureType :=
  match v with
  | Some (Json.Str s) =>
      if decide (s = "door") then Ok door
      else if decide (s = "window") then Ok window else Untyped
  | _ => Untyped
  end.

Definition asWall (v : option Json.value) : result Wall :=
  match v with
  | Some (Json.Str s) =>
      if decide (s = "top") then Ok wall_top
      else if decide (s = "bottom") then Ok wall_bottom
      else if decide (s = "left") then Ok wall_left
      else if decide (s = "right") then Ok wall_right else Untyped
  | _ => Untyped
  end.

(** [f => ({ ...f, width: Math.round(f.width) })] *)
Definition sanitizeFeature (f : Json.value) : result WallFeature.t :=
  match f with
  | Json.Obj fields =>
      id ← asString (Json.get "id" fields);
      type ← asFeatureType (Json.get "type" fields);
      wall ← asWall (Json.get "wall" fields);
      position ← asNumber (Json.get "position" fields);
      width ← asNumber (Json.get "width" fields);
      Ok (WallFeature.Build id type wall position (Math_round width))
  | _ => Untyped
  end.

(** [r.features?.map(...) || []]: [undefined] and [null] give [[]]; any
    other value that is not an array has no [map] method to call. *)
Definition sanitizeFeatures (v : option Json.value) : result (list WallFeature.t) :=
  match v with
  | None | Some Json.Null => Ok []
  | Some (Json.Arr fs) => traverse sanitizeFeature fs
  | Some _ => Throw
  end.

(** [r.locked || false] *)
Definition sanitizeLocked (v : option Json.value) : result (option bool) :=
  match v with
  | None | Some Json.Null => Ok (Some false)
  | Some (Json.Bool b) => Ok (Some b)
  | _ => Untyped
  end.

(** The callback of [loadedRooms.map]; properties of the record other
    than those of [Room] are not kept in the embedding. *)
Definition sanitizeRoom (r : Json.value) : result Room.t :=
  match r with
  | Json.Obj fields =>
      id ← asString (Json.get "id" fields);
      name ← asString (Json.get "name" fields);
      color ← asString (Json.get "color" fields);
      zIndex ← asNumber (Json.get "zIndex" fields);
      x ← asNumber (Json.get "x" fields);
      y ← asNumber (Json.get "y" fields);
      width ← asNumber (Json.get "width" fields);
      height ← asNumber (Json.get "height" fields);
      locked ← sanitizeLocked (Json.get "locked" fields);
      features ← sanitizeFeatures (Json.get "features" fields);
      Ok {| Room.id := id; Room.name := name; Room.color := color;
            Room.zIndex := zIndex;
            Room.x := Math_round x; Room.y := Math_round y;
            Room.width := Math_round width; Room.height := Math_round height;
            Room.locked := locked; Room.features := features |}
  | _ => Untyped
  end.

(** The [try] block up to [setRooms]: validation, then sanitization.
    [text] is what [JSON.parse] returns, [None] when the content is not
    text or is not JSON (a thrown [Error] or [SyntaxError]). *)
Definition sanitizedRooms (text : option Json.value) : result (list Room.t) :=
  match text with
  | Some (Json.Arr loadedRooms) =>
      valid ← every isRoomRecord loadedRooms;
      if valid : bool then traverse sanitizeRoom loadedRooms
      else Throw                     (* Invalid file format. *)
  | Some _ => Throw                  (* Invalid file format. *)
  | None => Throw
  end.

Definition ALERT : string :=
  "Could not load the plan. The file may be corrupted or in an incorrect format.".

(** The callback: the next state and the alerts shown. *)
Definition onload (text : option Json.value) (st : AppState)
    : option (AppState * list string) :=
  match sanitizedRooms text with
  | Ok sanitizedRooms =>
      st' ← setRooms (History.Value sanitizedRooms) false st;
      Some (setSelectedRoomId None st', [])
  | Throw => Some (st, [ALERT])
  | Untyped => None
  end.


End Load.

(** ** Edits that the inspector asks for *)

Module Edit.
Import App.

(** [Partial<Room>]: the fields that an edit gives. *)
Module Partial.
Record t : Type := Build {
  id : option string;
  x : option number;
  y : option number;
  width : option number;
  height : option number;
  name : option string;
  color : option string;
  zIndex : option number;
  features : option (list WallFeature.t);
  locked : option bool;
}.

(** [{}] *)
Definition empty : t := Build None None None None None None None None None None.
End Partial.

(** [{ ...r, ...newValues }] *)
Definition assign (r : Room.t) (newValues : Partial.t) : Room.t :=
  {| Room.id := default (Room.id r) (Partial.id newValues);
     Room.x := default (Room.x r) (Partial.x newValues);
     Room.y := default (Room.y r) (Partial.y newValues);
     Room.width := default (Room.width r) (Partial.width newValues);
     Room.height := default (Room.height r) (Partial.height newValues);
     Room.name := default (Room.name r) (Partial.name newValues);
     Room.color := default (Room.color r) (Partial.color newValues);
     Room.zIndex := default (Room.zIndex r) (Partial.zIndex newValues);
     Room.features := default (Room.features r) (Partial.features newValues);
     Room.locked := match Partial.locked newValues with
                    | Some b => Some b
                    | None => Room.locked r
                    end |}.

(** The callback of [prev.map] in [handleUpdateRoom]. *)
Definition updateRoom (id : string) (newValues : Partial.t) (r : Room.t) : Room.t :=
  if decide (Room.id r = id) then assign r newValues else r.

Definition handleUpdateRoom (id : string) (newValues : Partial.t) (st : AppState)
    : option AppState :=
  setRooms (History.Updater (map (updateRoom id newValues))) false st.

Definition handleDeleteRoom (id : string) (st : AppState) : option AppState :=
  st' ← setRooms (History.Updater (filter (λ r, Room.id r ≠ id))) false st;
  Some (setSelectedRoomId None st').

(** [rooms.find(r => r.id === selectedRoomId)]; no room has the
    identifier [null]. *)
Definition selectedRoom (st : AppState) : option Room.t :=
  rs ← rooms st;
  selected ← selectedRoomId st;
  snd <$> list_find (λ r, Room.id r = selected) rs.

End Edit.

(** ** The inspector panel ([components/InspectorPanel.tsx]) *)

Module Inspector.
Import App Edit.

(** [{ features: fs }] *)
Definition featuresEdit (fs : list WallFeature.t) : Partial.t :=
  Partial.Build None None None None None None None None (Some fs) None.

(** [handleAddFeature(type)]; [uuid] is the value of
    [crypto.randomUUID()]. *)
Definition handleAddFeature (uuid : string) (type : FeatureType) (st : AppState)
    : option AppState :=
  match selectedRoom st with
  | None => Some st
  | Some selectedRoom =>
      let newFeature :=
        {| WallFeature.id := uuid;
           WallFeature.type := type;
           WallFeature.wall := wall_top;
           WallFeature.position := 1 # 2;
           WallFeature.width := match type with door => 40 | window => 60 end |} in
      handleUpdateRoom (Room.id selectedRoom)
        (featuresEdit (Room.features selectedRoom ++ [newFeature])) st
  end.



Definition handleToggleLock (st : AppState) : option AppState :=
  match selectedRoom st with
  | None => Some st
  | Some selectedRoom =>
      handleUpdateRoom (Room.id selectedRoom)
        (Partial.Build None None None None None None None None None
           (Some (negb (Room.is_locked selectedRoom)))) st
  end.

End Inspector.

(** ** Rendering a wall feature *)

Module Render.

(** The computed part of the style of a feature. *)
Module Style.
Record t : Type := Build {
  backgroundColor : string;
  width : number;
  height : number;
  left : number;
  top : number;
}.
End Style.


End Render.

(** ** Saving a plan: the data that [handleSave] writes *)

Module Save.

Definition featureTypeName (t : FeatureType) : string :=
  match t with door => "door" | window => "window" end.

Definition wallName (w : Wall) : string :=
  match w with
  | wall_top => "top" | wall_bottom => "bottom"
  | wall_left => "left" | wall_right => "right"
  end.

(** The value that [JSON.parse] gives back for the text that
    [JSON.stringify] writes for a feature. *)
Definition featureJson (f : WallFeature.t) : Json.value :=
  Json.Obj
    [ ("id", Json.Str (WallFeature.id f));
      ("type", Json.Str (featureTypeName (WallFeature.type f)));
      ("wall", Json.Str (wallName (WallFeature.wall f)));
      ("position", Json.Num (WallFeature.position f));
      ("width", Json.Num (WallFeature.width f)) ]%string.

(** The same for a room; a property whose value is [undefined] is not
    written. *)
Definition roomJson (r : Room.t) : Json.value :=
  Json.Obj
    ([ ("id", Json.Str (Room.id r)); ("name", Json.Str (Room.name r));
       ("x", Json.Num (Room.x r)); ("y", Json.Num (Room.y r));
       ("width", Json.Num (Room.width r)); ("height", Json.Num (Room.height r));
       ("color", Json.Str (Room.color r)); ("zIndex", Json.Num (Room.zIndex r));
       ("features", Json.Arr (featureJson <$> Room.features r)) ]%string
     ++ match Room.locked r with
        | Some b => [("locked"%string, Json.Bool b)]
        | None => []
        end).

(** [JSON.stringify(rooms, null, 2)], read back by [JSON.parse]. *)
Definition handleSave (rooms : list Room.t) : Json.value :=
  Json.Arr (roomJson <$> rooms).

End Save.

(** ** Vocabulary of the statements *)

Module Geometry.
Import App.
#[local] Open Scope Q_scope.

(** The number is an integer. *)
Definition is_int (q : number) : Prop := ∃ n : Z, q == inject_Z n.

(** The number is a whole multiple of the grid unit. *)
Definition on_grid (q : number) : Prop := ∃ k : Z, q == inject_Z k * GRID_SIZE.

(** The rectangle of the room has integer coordinates. *)
Definition integer_rect (r : Room.t) : Prop :=
  is_int (Room.x r) ∧ is_int (Room.y r)
  ∧ is_int (Room.width r) ∧ is_int (Room.height r).

(** The two edges that meet in the corner opposite to [handle] are where
    they were: [r] before the step, [r'] after it. *)
Definition anchor_fixed (handle : ResizeHandle) (r r' : Room.t) : Prop :=
  let left_fixed := Room.x r' == Room.x r in
  let top_fixed := Room.y r' == Room.y r in
  let right_fixed := Room.x r' + Room.width r' == Room.x r + Room.width r in
  let bottom_fixed := Room.y r' + Room.height r' == Room.y r + Room.height r in
  match handle with
  | bottom_right => left_fixed ∧ top_fixed
  | top_left => right_fixed ∧ bottom_fixed
  | top_right => left_fixed ∧ bottom_fixed
  | bottom_left => right_fixed ∧ top_fixed
  end.


End Geometry.

Module Writes.
Import App.

(** The history after one appended entry [v]: the entries up to the
    current one are kept, the redoable ones are dropped, and [v] is the
    new last and current entry. *)
Definition pushed {T : Type} (v : T) (h : History.t T) : History.t T :=
  {| History.history := take (S (History.index h)) (History.history h) ++ [v];
     History.index := S (History.index h) |}.

(** The state left by a call [setRooms(prev => f(prev), true)] when the
    current snapshot is [rs]. *)
Definition overwritten (f : list Room.t -> list Room.t) (rs : list Room.t)
    (st : AppState) : AppState :=
  set_hist {| History.history := <[History.index (hist st) := f rs]>
                                   (History.history (hist st));
              History.index := History.index (hist st) |} st.

(** The state after the first statement of both drag branches:
    [isDragging] is set unless it already is. *)
Definition dragged (st : AppState) : AppState :=
  if Action.is_dragging (actionState st) then st
  else setActionState (Action.dragging (actionState st)) st.

End Writes.

(** ** The scenarios of the specification *)

Module Scenario.
Import App Pointer.

(** The canvas is mounted at the origin of the viewport, so that with the
    initial view transform (scale 1, translation 0) a viewport point is
    its own world point. *)
Definition origin : DOMRect.t := DOMRect.Build 0 0.
Definition start : AppState := initialApp (Some origin).

(** A primary-button mouse event at the viewport point [(x, y)]. *)
Definition primary (x y : number) : MouseEvent.t := MouseEvent.Build 0 x y.

Definition roomA : Room.t :=
  Room.Build "living-room-1" 50 50 300 200 "Living Room" "#DBEAFE" 0 [] (Some false).
Definition roomB : Room.t :=
  Room.Build "kitchen-1" 350 50 150 150 "Kitchen" "#BFDBFE" 1 [] (Some false).

(** With the draw tool selected, a rectangle is drawn from the world
    point (10,10) to the world point [(x, y)]. *)
Definition drawFrom_10_10 (x y : number) : option AppState :=
  run [ MouseDownCanvas (primary 10 10); MouseMove (primary 20 20);
        MouseMove (primary x y); MouseUp (primary x y) "room-3" ]
      (setMode draw start).

(** Room A is grabbed at (60,60) and dragged by the world delta (23,17). *)
Definition dragA : list Event :=
  [ MouseDownRoom (primary 60 60) roomA; MouseMove (primary 65 62);
    MouseMove (primary 74 70); MouseMove (primary 83 77);
    MouseUp (primary 83 77) "unused" ].

(** Room A at its place after that drag. *)
Definition roomA_moved : Room.t :=
  Room.Build "living-room-1" 70 70 300 200 "Living Room" "#DBEAFE" 0 [] (Some false).

(** The room that the draw from (10,10) to (45,45) creates. *)
Definition room3 (w h : number) : Room.t :=
  Room.Build "room-3" 10 10 w h "Room 3" "#93C5FD" 2 [] (Some false).



(** The states in which a drag gesture is in progress: a move with its
    target and offset, or a resize with its target and handle. *)
Definition drag_in_progress (st : AppState) : Prop :=
  isPanning st = false
  ∧ is_Some (Action.target (actionState st))
  ∧ ((Action.type (actionState st) = moving
      ∧ is_Some (Action.moveOffset (actionState st)))
     ∨ (Action.type (actionState st) = resizing
        ∧ is_Some (Action.handle (actionState st)))).

End Scenario.

(** ** Locked rooms *)

Module Lock.
Import App.




End Lock.

(** ** Plan files *)

Module Files.
Import App Pointer Scenario.

(** The fields that a room record must have. *)
Definition REQUIRED : list string :=
  ["id"; "name"; "x"; "y"; "width"; "height"; "color"; "zIndex"]%string.

(** The record [r] has the field [k]. *)
Definition hasField (k : string) (r : Json.value) : Prop :=
  match r with
  | Json.Obj fields => k ∈ fields.*1
  | _ => False
  end.

(** The record lacks one of the required fields. *)
Definition lacksField (r : Json.value) : Prop :=
  ∃ k, k ∈ REQUIRED ∧ ¬ hasField k r.

(** The positions of the wall features of a room list, room by room. *)
Definition positions (rs : list Room.t) : list (list number) :=
  (λ r, WallFeature.position <$> Room.features r) <$> rs.

(** Every wall feature of every room has its position in [0,1]. *)
Definition positionsInRange (rs : list Room.t) : Prop :=
  Forall (λ r, Forall (λ f, (0 <= WallFeature.position f <= 1)%Q)
                      (Room.features r)) rs.


(** A plan file with one room that has one door at [position] along its
    top wall. *)
Definition planWithDoor (position : number) : Json.value :=
  Json.Arr
    [ Json.Obj
        [ ("id", Json.Str "hall"); ("name", Json.Str "Hall");
          ("x", Json.Num 0); ("y", Json.Num 0);
          ("width", Json.Num 200); ("height", Json.Num 100);
          ("color", Json.Str "#E5E7EB"); ("zIndex", Json.Num 0);
          ("features",
           Json.Arr
             [ Json.Obj
                 [ ("id", Json.Str "door-1"); ("type", Json.Str "door");
                   ("wall", Json.Str "top"); ("position", Json.Num position);
                   ("width", Json.Num (81 # 2)) ] ]) ] ]%string.

(** The room that loading [planWithDoor position] gives. *)
Definition hall (position : number) : Room.t :=
  Room.Build "hall" 0 0 200 100 "Hall" "#E5E7EB" 0
    [WallFeature.Build "door-1" door wall_top position 41] (Some false).

(** A room is drawn from (10,10) to (110,110) and the draw is undone:
    the history has two entries, and the first one is current. *)
Definition drawnAndUndone : option AppState :=
  undo <$> drawFrom_10_10 110 110.

End Files.

(** ** Integer coordinates *)

Module Tidy.
Import App Geometry.

Definition integer_point (p : Point.t) : Prop :=
  is_int (Point.x p) ∧ is_int (Point.y p).

(** Every room of the current snapshot has an integer rectangle, and so
    has the start point of a draw gesture under way. *)
Definition tidy (st : AppState) : Prop :=
  (∀ startPoint, Action.startPoint (actionState st) = Some startPoint ->
                 integer_point startPoint)
  ∧ ∃ rs, rooms st = Some rs ∧ Forall integer_rect rs.

End Tidy.

(** ** Saved plans *)

Module Stored.

(** The number is an integer, written as one. *)
Definition integral (q : number) : Prop := ∃ n : Z, q = inject_Z n.

(** What the loader changes in a room it reads: it rounds the rectangle
    and the widths of the features, and makes [locked] a boolean. *)
Definition roundedFeature (f : WallFeature.t) : WallFeature.t :=
  WallFeature.Build (WallFeature.id f) (WallFeature.type f) (WallFeature.wall f)
    (WallFeature.position f) (Math_round (WallFeature.width f)).

Definition reloaded (r : Room.t) : Room.t :=
  {| Room.id := Room.id r; Room.name := Room.name r; Room.color := Room.color r;
     Room.zIndex := Room.zIndex r;
     Room.x := Math_round (Room.x r); Room.y := Math_round (Room.y r);
     Room.width := Math_round (Room.width r);
     Room.height := Math_round (Room.height r);
     Room.locked := Some (Room.is_locked r);
     Room.features := roundedFeature <$> Room.features r |}.

(** The room has an integer rectangle and integer feature widths, and its
    [locked] field is set: it is what the editor itself creates. *)
Definition exact (r : Room.t) : Prop :=
  integral (Room.x r) ∧ integral (Room.y r)
  ∧ integral (Room.width r) ∧ integral (Room.height r)
  ∧ Forall (λ f, integral (WallFeature.width f)) (Room.features r)
  ∧ is_Some (Room.locked r).

End Stored.

(** * Properties *)

(** ** The history store *)

Module HistoryFacts.
Import History.
Section Facts.
Context {T : Type}.
Implicit Types (h : History.t T) (v : T).

Lemma in_range_state h : in_range h ↔ is_Some (state h).
Proof. unfold in_range, state. by rewrite lookup_lt_is_Some. Qed.

(** An append keeps the entries up to the current one, drops the
    redoable ones and makes the new entry current. *)
Lemma setState_append v h :
  in_range h ->
  setState (Value v) false h
  = Some {| history := take (S (index h)) (history h) ++ [v];
            index := S (index h) |}.
Proof.
  unfold in_range, setState. intros Hlt. cbn [mbind option_bind].
  do 2 f_equal. rewrite length_app, length_take. cbn [length]. lia.
Qed.

Lemma setState_overwrite (f : T -> T) v h :
  state h = Some v ->
  setState (Updater f) true h
  = Some {| history := <[index h := f v]> (history h); index := index h |}.
Proof.
  intros Hs. unfold setState. rewrite Hs. simpl.
  apply lookup_lt_Some in Hs. by rewrite decide_True.
Qed.

Lemma setState_in_range action overwrite h h' :
  setState action overwrite h = Some h' -> in_range h'.
Proof.
  unfold setState, in_range. intros Hs.
  destruct (match action with Value v => Some v | Updater f => f <$> state h end)
    as [newState|]; simpl in Hs; [|done].
  destruct overwrite.
  - case_decide; simplify_eq. simpl. by rewrite length_insert.
  - simplify_eq. cbn [index history]. rewrite !length_app. cbn [length]. lia.
Qed.

Lemma undo_in_range h : in_range h -> in_range (undo h).
Proof. unfold in_range, undo. case_decide; simpl; lia. Qed.

Lemma redo_in_range h : in_range h -> in_range (redo h).
Proof. unfold in_range, redo. case_decide; simpl; lia. Qed.

(** In every reachable state of the hook [history[index]] is defined. *)
Lemma reachable_in_range (init : T) h : reachable init h -> in_range h.
Proof.
  induction 1 as [|h action overwrite h' _ _ Hs|h _ IH|h _ IH].
  - unfold in_range. simpl. lia.
  - by eapply setState_in_range.
  - by apply undo_in_range.
  - by apply redo_in_range.
Qed.

Lemma redo_undo h : in_range h -> 0 < index h -> redo (undo h) = h.
Proof.
  unfold in_range. intros Hr Hpos.
  unfold undo. rewrite decide_True by done.
  unfold redo. cbn [index history].
  rewrite decide_True by lia. destruct h as [l i]. cbn [index history] in *.
  f_equal. lia.
Qed.

(** C9. In every reachable state of the history in which [canUndo]
    holds, [undo()] followed at once by [redo()] gives back the state
    before the undo: the same snapshot sequence, the same current index
    and so the same current snapshot, whatever the depth. *)
Theorem undo_then_redo (init : T) h :
  reachable init h -> canUndo h = true ->
  redo (undo h) = h
  ∧ state (redo (undo h)) = state h
  ∧ index (redo (undo h)) = index h.
Proof.
  intros Hreach Hcan. apply reachable_in_range in Hreach.
  apply bool_decide_eq_true in Hcan.
  rewrite redo_undo by done. auto.
Qed.

End Facts.

Lemma undo_then_redo_witness :
  let h := {| history := [7; 8; 9]; index := 2 |} in
  redo (undo h) = h ∧ state (redo (undo h)) = state h
  ∧ index (redo (undo h)) = index h.
Proof.
  apply (undo_then_redo 7).
  - apply (reach_setState 7 {| history := [7; 8]; index := 1 |} (Value 9) false);
      [|reflexivity].
    apply (reach_setState 7 (useHistory 7) (Updater S) false); [|reflexivity].
    apply reach_init.
  - reflexivity.
Defined.

End HistoryFacts.

(** ** Rounding and snapping *)

Module NumberFacts.
Import App Geometry.
#[local] Open Scope Q_scope.

Lemma Math_round_le a b : a <= b -> Math_round a <= Math_round b.
Proof.
  intros Hab. unfold Math_round. rewrite <- Zle_Qle.
  apply Qfloor_resp_le. by apply Qplus_le_l.
Qed.

Lemma Math_round_inject n : Math_round (inject_Z n) = inject_Z n.
Proof.
  unfold Math_round, Qfloor, inject_Z, Qplus. cbn [Qnum Qden]. f_equal.
  change (Z.pos (1 * 2)) with 2%Z. Z.div_mod_to_equations. lia.
Qed.

Lemma Math_round_comp a b : a == b -> Math_round a = Math_round b.
Proof.
  intros Hab. unfold Math_round. f_equal. apply Qfloor_comp. by rewrite Hab.
Qed.

Lemma Math_round_int q : is_int q -> Math_round q == q.
Proof.
  intros [n Hn]. rewrite (Math_round_comp _ _ Hn), Math_round_inject. by rewrite Hn.
Qed.

Lemma is_int_comp a b : a == b -> is_int a -> is_int b.
Proof. intros Hab [n Hn]. exists n. by rewrite <- Hab. Qed.

Lemma is_int_plus a b : is_int a -> is_int b -> is_int (a + b).
Proof. intros [n Hn] [m Hm]. exists (n + m)%Z. rewrite Hn, Hm, inject_Z_plus. reflexivity. Qed.

Lemma is_int_minus a b : is_int a -> is_int b -> is_int (a - b).
Proof.
  intros [n Hn] [m Hm]. exists (n - m)%Z. rewrite Hn, Hm.
  unfold Z.sub. rewrite inject_Z_plus, inject_Z_opp. reflexivity.
Qed.

Lemma is_int_min a b : is_int a -> is_int b -> is_int (Math_min a b).
Proof.
  intros Ha Hb. unfold Math_min.
  destruct (Q.min_spec a b) as [[_ H]|[_ H]];
    [apply (is_int_comp a)|apply (is_int_comp b)]; auto; symmetry; exact H.
Qed.

Lemma is_int_max a b : is_int a -> is_int b -> is_int (Math_max a b).
Proof.
  intros Ha Hb. unfold Math_max.
  destruct (Q.max_spec a b) as [[_ H]|[_ H]];
    [apply (is_int_comp b)|apply (is_int_comp a)]; auto; symmetry; exact H.
Qed.

Lemma is_int_GRID_SIZE : is_int GRID_SIZE.
Proof. by exists 10%Z. Qed.

(** The snapped value is a whole multiple of the grid unit. *)
Lemma snapToGrid_on_grid v : on_grid (snapToGrid v).
Proof. by exists (Qfloor (v / GRID_SIZE + (1 # 2))). Qed.

Lemma on_grid_is_int q : on_grid q -> is_int q.
Proof.
  intros [k Hk]. exists (k * 10)%Z. rewrite Hk, inject_Z_mult. reflexivity.
Qed.

Lemma on_grid_minus a b : on_grid a -> on_grid b -> on_grid (a - b).
Proof.
  intros [n Hn] [m Hm]. exists (n - m)%Z. rewrite Hn, Hm.
  unfold Z.sub. rewrite inject_Z_plus, inject_Z_opp. ring.
Qed.

Lemma on_grid_abs a : on_grid a -> on_grid (Math_abs a).
Proof.
  intros [n Hn]. exists (Z.abs n). unfold Math_abs.
  rewrite Hn, Qabs_Qmult. reflexivity.
Qed.

End NumberFacts.

(** ** The view transform *)

Module ViewFacts.
Import App Geometry.
#[local] Open Scope Q_scope.





End ViewFacts.

(** ** Resizing *)

Module ResizeFacts.
Import App Geometry NumberFacts.
#[local] Open Scope Q_scope.

Lemma round_ge_grid w : GRID_SIZE <= w -> GRID_SIZE <= Math_round w.
Proof. intros Hw. by apply (Math_round_le GRID_SIZE w) in Hw. Qed.

Lemma grid_le_from_min s edge : GRID_SIZE <= edge - Math_min s (edge - GRID_SIZE).
Proof.
  unfold Math_min. pose proof (Q.le_min_r s (edge - GRID_SIZE)) as Hmin.
  set (m := Qmin _ _) in *. lra.
Qed.

Lemma grid_le_max v : GRID_SIZE <= Math_max GRID_SIZE v.
Proof. apply Q.le_max_l. Qed.

(** A rounded edge and the rounded distance to a fixed integer edge add
    up to that edge. *)
Lemma rounded_anchor edge v :
  is_int edge -> is_int v -> Math_round v + Math_round (edge - v) == edge.
Proof.
  intros He Hv. rewrite (Math_round_int v), (Math_round_int (edge - v)); auto.
  - ring.
  - by apply is_int_minus.
Qed.

Lemma rounded_anchor_id edge x w :
  is_int x -> x + w == edge -> is_int edge -> Math_round x + Math_round (edge - x) == x + w.
Proof. intros Hx Hsum He. rewrite rounded_anchor; auto. by symmetry. Qed.

(** One application of the resize rule to the target room. *)
Lemma resizeRoom_target (handle : ResizeHandle) (p : Point.t) (r : Room.t) :
  let r' := resizeRoom (Room.id r) handle p r in
  GRID_SIZE <= Room.width r' ∧ GRID_SIZE <= Room.height r'
  ∧ (integer_rect r -> is_int (Point.x p) -> is_int (Point.y p) ->
     anchor_fixed handle r r').
Proof.
  unfold resizeRoom. rewrite decide_True by done.
  pose proof is_int_GRID_SIZE as Hg.
  destruct handle; cbn [Room.with_rect Room.x Room.y Room.width Room.height];
    (split; [|split]);
    try (apply round_ge_grid; first [apply grid_le_from_min | apply grid_le_max]).
  all: intros (Hx & Hy & Hw & Hh) Hpx Hpy; unfold anchor_fixed;
    cbn [Room.x Room.y Room.width Room.height].
  all: assert (Hr : is_int (Room.x r + Room.width r)) by (by apply is_int_plus).
  all: assert (Hb : is_int (Room.y r + Room.height r)) by (by apply is_int_plus).
  all: split;
    first [ by apply Math_round_int
          | apply rounded_anchor; [done|];
            apply is_int_min; [done|]; by apply is_int_minus ].
Qed.

Lemma resizeRoom_other targetId handle p r :
  Room.id r ≠ targetId -> resizeRoom targetId handle p r = r.
Proof. intros Hne. unfold resizeRoom. by rewrite decide_False. Qed.

End ResizeFacts.

(** ** One pointer-move step of a drag *)

Module StepFacts.
Import App Writes HistoryFacts.

Lemma setRooms_overwrite f rs st :
  rooms st = Some rs ->
  setRooms (History.Updater f) true st = Some (overwritten f rs st).
Proof.
  intros Hrs. unfold setRooms. by rewrite (setState_overwrite f rs).
Qed.

Lemma rooms_overwritten f rs st :
  rooms st = Some rs -> rooms (overwritten f rs st) = Some (f rs).
Proof.
  unfold rooms, History.state. intros Hrs. destruct st as [[hs i] ? ? ? ? ? ? ? ?].
  cbn in *. apply list_lookup_insert_eq. by eapply lookup_lt_Some.
Qed.

Lemma rooms_dragged st : rooms (dragged st) = rooms st.
Proof. unfold dragged. by destruct (Action.is_dragging _). Qed.

Lemma hist_dragged st : hist (dragged st) = hist st.
Proof. unfold dragged. by destruct (Action.is_dragging _). Qed.

Lemma handleMouseMove_resizing e st targetId handle rs :
  isPanning st = false ->
  Action.type (actionState st) = resizing ->
  Action.target (actionState st) = Some targetId ->
  Action.handle (actionState st) = Some handle ->
  rooms st = Some rs ->
  handleMouseMove e st
  = Some (overwritten
            (map (resizeRoom targetId handle (snapPoint (getMouseWorldPos e st))))
            rs (dragged st)).
Proof.
  intros Hpan Hty Htg Hh Hrs. unfold handleMouseMove.
  rewrite Hpan, Hty, Htg, Hh. fold (dragged st).
  apply setRooms_overwrite. by rewrite rooms_dragged.
Qed.

Lemma handleMouseMove_moving e st targetId moveOffset rs :
  isPanning st = false ->
  Action.type (actionState st) = moving ->
  Action.target (actionState st) = Some targetId ->
  Action.moveOffset (actionState st) = Some moveOffset ->
  rooms st = Some rs ->
  handleMouseMove e st
  = Some (overwritten
            (map (moveRoom targetId moveOffset (getMouseWorldPos e st)))
            rs (dragged st)).
Proof.
  intros Hpan Hty Htg Hoff Hrs. unfold handleMouseMove.
  rewrite Hpan, Hty, Htg, Hoff. fold (dragged st).
  apply setRooms_overwrite. by rewrite rooms_dragged.
Qed.

End StepFacts.

Module ResizeStep.
Import App Geometry Writes NumberFacts ResizeFacts StepFacts.
#[local] Open Scope Q_scope.

(** C5. In a pointer-move step of a resize gesture, every room other
    than the target is left as it is, and the recomputed width and height
    of the target are at least one grid unit; if the target has integer
    coordinates, the two edges that meet in the corner opposite to the
    dragged handle stay where they are ([x], [y] for bottom-right,
    [x + width], [y + height] for top-left, and so on). *)
Theorem resize_step_min_size_and_anchor
    (e : MouseEvent.t) (st : AppState) (targetId : string)
    (handle : ResizeHandle) (rs : list Room.t) :
  isPanning st = false ->
  Action.type (actionState st) = resizing ->
  Action.target (actionState st) = Some targetId ->
  Action.handle (actionState st) = Some handle ->
  rooms st = Some rs ->
  ∃ st' rs',
    handleMouseMove e st = Some st' ∧ rooms st' = Some rs'
    ∧ Forall2 (λ r r',
        if decide (Room.id r = targetId) then
          GRID_SIZE <= Room.width r' ∧ GRID_SIZE <= Room.height r'
          ∧ (integer_rect r -> anchor_fixed handle r r')
        else r' = r) rs rs'.
Proof.
  intros Hpan Hty Htg Hh Hrs.
  eexists _, _. split; [by eapply handleMouseMove_resizing|].
  split; [apply rooms_overwritten; by rewrite rooms_dragged|].
  apply Forall2_fmap_r, Forall_Forall2_diag, Forall_forall. intros r _.
  case_decide as Hid.
  - subst targetId.
    destruct (resizeRoom_target handle (snapPoint (getMouseWorldPos e st)) r)
      as (Hw & Hht & Hanchor).
    split; [done|]. split; [done|]. intros Hint. apply Hanchor; [done|..];
      apply on_grid_is_int, snapToGrid_on_grid.
  - by apply resizeRoom_other.
Qed.

(** The bottom-right handle of the living room, dragged to (400,300). *)
Lemma resize_step_min_size_and_anchor_witness :
  let st := handleResizeStart (MouseEvent.Build 0 350 250)
              (Room.Build "living-room-1" 50 50 300 200 "Living Room" "#DBEAFE"
                          0 [] (Some false))
              bottom_right (initialApp (Some (DOMRect.Build 0 0))) in
  ∃ st' rs',
    handleMouseMove (MouseEvent.Build 0 400 300) st = Some st'
    ∧ rooms st' = Some rs'
    ∧ Forall2 (λ r r',
        if decide (Room.id r = "living-room-1"%string) then
          GRID_SIZE <= Room.width r' ∧ GRID_SIZE <= Room.height r'
          ∧ (integer_rect r -> anchor_fixed bottom_right r r')
        else r' = r) initialRooms rs'.
Proof.
  intros st.
  apply (resize_step_min_size_and_anchor (MouseEvent.Build 0 400 300) st
           "living-room-1" bottom_right initialRooms); reflexivity.
Defined.

End ResizeStep.

(** ** Drawing a room *)

Module DrawFacts.
Import App Pointer Geometry Writes Scenario NumberFacts HistoryFacts.
#[local] Open Scope Q_scope.

Lemma run_app evs1 evs2 st :
  run (evs1 ++ evs2) st = st' ← run evs1 st; run evs2 st'.
Proof.
  revert st. induction evs1 as [|ev evs1 IH]; intros st; [done|].
  cbn [run app]. destruct (step ev st) as [st1|]; [|done]. apply IH.
Qed.

Lemma setRooms_push f rs st :
  rooms st = Some rs ->
  setRooms (History.Updater f) false st = Some (set_hist (pushed (f rs) (hist st)) st).
Proof.
  unfold rooms, setRooms, History.setState. intros Hrs. rewrite Hrs.
  cbn [fmap option_fmap option_map mbind option_bind]. do 2 f_equal.
  unfold pushed. f_equal. apply lookup_lt_Some in Hrs.
  rewrite length_app, length_take. cbn [length]. lia.
Qed.

(** A pointer-down that starts a draw gesture: on the canvas or, as the
    event bubbles, on a room body. *)
Lemma draw_start down e st :
  mode st = draw -> MouseEvent.button e ≠ 1%nat ->
  down = MouseDownCanvas e ∨ (∃ room, down = MouseDownRoom e room) ->
  let startPoint := snapPoint (getMouseWorldPos e st) in
  step down st
  = Some (setSelectedRoomId None
            (setDrawingPreview (Some (startPoint, startPoint))
               (setActionState
                  (Action.Build drawing (Some startPoint) None None None None) st))).
Proof.
  intros Hmode Hbutton [->|[room ->]]; cbn [step];
    unfold handleRoomMouseDown, handleMouseDown; rewrite ?Hmode;
    by rewrite decide_False.
Qed.

(** Pointer moves of a draw gesture change the preview only. *)
Lemma draw_moves moves st :
  isPanning st = false -> Action.type (actionState st) = drawing ->
  ∃ preview, run (MouseMove <$> moves) st = Some (setDrawingPreview preview st).
Proof.
  intros Hpan Hty. revert st Hpan Hty.
  induction moves as [|e moves IH]; intros st Hpan Hty.
  - exists (drawingPreview st). by destruct st.
  - cbn [fmap list_fmap run step]. unfold handleMouseMove. rewrite Hpan, Hty.
    cbn [mbind option_bind].
    edestruct (IH (setDrawingPreview
                     match drawingPreview st with
                     | Some (start, _) =>
                         Some (start, snapPoint (getMouseWorldPos e st))
                     | None => None
                     end st)) as [preview Hrun]; [done..|].
    exists preview. exact Hrun.
Qed.

Lemma handleMouseUp_drawing e uuid st startPoint rs :
  isPanning st = false ->
  Action.type (actionState st) = drawing ->
  Action.startPoint (actionState st) = Some startPoint ->
  rooms st = Some rs ->
  let room := newRoom uuid rs startPoint (snapPoint (getMouseWorldPos e st)) in
  handleMouseUp e uuid st
  = Some (setActionState Action.idle
            (setMode select
               (setDrawingPreview None
                  (if ge (Room.width room) GRID_SIZE && ge (Room.height room) GRID_SIZE
                   then setSelectedRoomId (Some uuid)
                          (set_hist (pushed (rs ++ [room]) (hist st)) st)
                   else st)))).
Proof.
  intros Hpan Hty Hsp Hrs room. unfold handleMouseUp.
  rewrite Hrs, Hpan, Hty, Hsp. cbn [mbind option_bind bool_decide andb].
  rewrite !bool_decide_eq_false_2 by done. cbn [andb mbind option_bind].
  fold room. destruct (ge (Room.width room) GRID_SIZE && ge (Room.height room) GRID_SIZE);
    [|done].
  by rewrite (setRooms_push _ rs).
Qed.

Lemma ge_true a b : ge a b = true ↔ b <= a.
Proof. unfold ge. apply Qle_bool_iff. Qed.

(** C3. A completed draw gesture, from a pointer-down in draw mode with
    the snapped start point to a pointer-up with the snapped end point:
    [|start.x - end.x|] and [|start.y - end.y|] are multiples of the grid
    unit, and either both are at least one grid unit and one room with
    these dimensions is added to the current snapshot in one appended
    history entry, or the history is not written at all. *)
Theorem draw_gesture_outcome
    (st : AppState) (down : Event) (e1 : MouseEvent.t)
    (moves : list MouseEvent.t) (e2 : MouseEvent.t) (uuid : string)
    (rs : list Room.t) :
  mode st = draw -> isPanning st = false -> MouseEvent.button e1 ≠ 1%nat ->
  rooms st = Some rs ->
  down = MouseDownCanvas e1 ∨ (∃ room, down = MouseDownRoom e1 room) ->
  let startPoint := snapPoint (getMouseWorldPos e1 st) in
  let snappedEnd := snapPoint (getMouseWorldPos e2 st) in
  let w := Math_abs (Point.x startPoint - Point.x snappedEnd) in
  let h := Math_abs (Point.y startPoint - Point.y snappedEnd) in
  on_grid w ∧ on_grid h
  ∧ ∃ st',
      run (down :: (MouseMove <$> moves) ++ [MouseUp e2 uuid]) st = Some st'
      ∧ ((GRID_SIZE <= w ∧ GRID_SIZE <= h
          ∧ ∃ room, Room.width room = w ∧ Room.height room = h
                    ∧ hist st' = pushed (rs ++ [room]) (hist st))
         ∨ (¬ (GRID_SIZE <= w ∧ GRID_SIZE <= h) ∧ hist st' = hist st)).
Proof.
  intros Hmode Hpan Hbutton Hrs Hdown startPoint snappedEnd w h.
  split; [|split].
  1,2: apply on_grid_abs, on_grid_minus; apply snapToGrid_on_grid.
  cbn [run]. rewrite (draw_start down e1 st Hmode Hbutton Hdown).
  cbn [mbind option_bind]. fold startPoint.
  set (st1 := setSelectedRoomId None _).
  destruct (draw_moves moves st1 Hpan eq_refl) as [preview Hmoves].
  rewrite run_app, Hmoves. cbn [mbind option_bind run step].
  rewrite (handleMouseUp_drawing e2 uuid (setDrawingPreview preview st1)
             startPoint rs Hpan eq_refl eq_refl Hrs).
  eexists. split; [reflexivity|].
  change (getMouseWorldPos e2 (setDrawingPreview preview st1))
    with (getMouseWorldPos e2 st).
  fold snappedEnd. set (room := newRoom uuid rs startPoint snappedEnd).
  change (Room.width room) with w. change (Room.height room) with h.
  destruct (ge w GRID_SIZE) eqn:Hw; [destruct (ge h GRID_SIZE) eqn:Hh|]; cbn [andb].
  - left. apply ge_true in Hw, Hh. split; [done|]. split; [done|].
    by exists room.
  - right. split; [|done]. intros [_ Hh']. apply ge_true in Hh'. congruence.
  - right. split; [|done]. intros [Hw' _]. apply ge_true in Hw'. congruence.
Qed.

(** With the draw tool, a rectangle from (10,10) over (20,20) to
    (110,110). *)
Lemma draw_gesture_outcome_witness :
  let st := setMode draw start in
  let w := Math_abs (snapToGrid ((10 - 0 - 0) / 1) - snapToGrid ((110 - 0 - 0) / 1)) in
  let h := Math_abs (snapToGrid ((10 - 0 - 0) / 1) - snapToGrid ((110 - 0 - 0) / 1)) in
  on_grid w ∧ on_grid h
  ∧ ∃ st',
      run (MouseDownCanvas (primary 10 10)
             :: (MouseMove <$> [primary 20 20]) ++ [MouseUp (primary 110 110) "room-3"])
          st = Some st'
      ∧ ((GRID_SIZE <= w ∧ GRID_SIZE <= h
          ∧ ∃ room, Room.width room = w ∧ Room.height room = h
                    ∧ hist st' = pushed (initialRooms ++ [room]) (hist st))
         ∨ (¬ (GRID_SIZE <= w ∧ GRID_SIZE <= h) ∧ hist st' = hist st)).
Proof.
  apply (draw_gesture_outcome (setMode draw start)
           (MouseDownCanvas (primary 10 10)) (primary 10 10) [primary 20 20]
           (primary 110 110) "room-3" initialRooms).
  - reflexivity.
  - reflexivity.
  - discriminate.
  - reflexivity.
  - left. reflexivity.
Defined.

(** The draw of the scenario does add a room: 45 snaps to 50, so the
    rectangle is 40 by 40. *)
Lemma draw_10_10_to_45_45_adds_a_room :
  ∃ st' rs',
    drawFrom_10_10 45 45 = Some st' ∧ rooms st' = Some rs'
    ∧ length rs' ≠ length initialRooms
    ∧ length (History.history (hist st')) ≠ length (History.history (hist start)).
Proof.
  eexists _, _. split; [vm_compute; reflexivity|].
  split; [vm_compute; reflexivity|]. cbn. lia.
Qed.

(** C4, amended.  From the two initial rooms, the draw gesture from the
    world point (10,10) to (45,45) ends at the snapped point (50,50): it
    adds one room at (10,10) of 40 by 40 with zIndex 2 in one appended
    history entry.  A draw gesture from (10,10) to (14,14), which ends at
    the snapped point (10,10), adds no room and leaves the history as it
    is. *)
Theorem draw_scenarios :
  (∃ st', drawFrom_10_10 45 45 = Some st'
          ∧ hist st' = pushed (initialRooms ++ [room3 40 40]) (hist start)
          ∧ rooms st' = Some [roomA; roomB; room3 40 40]
          ∧ length (History.history (hist st')) = 2%nat)
  ∧ (∃ st', drawFrom_10_10 14 14 = Some st' ∧ hist st' = hist start
            ∧ rooms st' = Some [roomA; roomB]).
Proof.
  split; eexists; (split; [vm_compute; reflexivity|]); repeat split.
Qed.

End DrawFacts.

(** ** Moving and resizing: one drag, one history entry *)

Module DragFacts.
Import App Pointer Writes Scenario HistoryFacts StepFacts DrawFacts.

Lemma dragged_is_dragging st : Action.is_dragging (actionState (dragged st)) = true.
Proof. unfold dragged. by destruct (Action.is_dragging (actionState st)) eqn:H. Qed.

Lemma drag_in_progress_dragged st : drag_in_progress st -> drag_in_progress (dragged st).
Proof. unfold dragged. by destruct (Action.is_dragging (actionState st)). Qed.

(** A pointer-move step of a drag overwrites the current snapshot and
    nothing else of the history. *)
Lemma drag_move_step e st rs :
  drag_in_progress st -> rooms st = Some rs ->
  ∃ f, handleMouseMove e st = Some (overwritten f rs (dragged st)).
Proof.
  intros (Hpan & [targetId Htg] & [[Hty [off Hoff]]|[Hty [handle Hh]]]) Hrs;
    eexists.
  - by eapply handleMouseMove_moving.
  - by eapply handleMouseMove_resizing.
Qed.

Lemma overwritten_twice f g rs rs' st :
  overwritten g rs' (overwritten f rs st) = overwritten g rs' st.
Proof.
  unfold overwritten. destruct st as [[hs i] ? ? ? ? ? ? ? ?]. cbn.
  by rewrite list_insert_insert_eq.
Qed.

Lemma dragged_overwritten f rs st :
  Action.is_dragging (actionState st) = true ->
  dragged (overwritten f rs st) = overwritten f rs st.
Proof.
  intros Hdrag. unfold dragged. cbn [overwritten actionState set_hist].
  by rewrite Hdrag.
Qed.

(** However many pointer-move steps a drag has, they leave one
    overwritten slot. *)
Lemma drag_moves e moves st rs :
  drag_in_progress st -> rooms st = Some rs ->
  ∃ final,
    run (MouseMove <$> e :: moves) st
    = Some (overwritten (λ _, final) rs (dragged st)).
Proof.
  revert e st rs. induction moves as [|e' moves IH]; intros e st rs Hdrag Hrs.
  - destruct (drag_move_step e st rs Hdrag Hrs) as [f Hstep].
    exists (f rs). cbn [fmap list_fmap run step]. by rewrite Hstep.
  - destruct (drag_move_step e st rs Hdrag Hrs) as [f Hstep].
    change (MouseMove <$> e :: e' :: moves)
      with (MouseMove e :: (MouseMove <$> e' :: moves)).
    cbn [run step]. rewrite Hstep. cbn [mbind option_bind].
    destruct (IH e' (overwritten f rs (dragged st)) (f rs)) as [final Hrun].
    + apply drag_in_progress_dragged in Hdrag. exact Hdrag.
    + apply rooms_overwritten. by rewrite rooms_dragged.
    + exists final. rewrite Hrun. f_equal.
      replace (dragged (overwritten f rs (dragged st)))
        with (overwritten f rs (dragged st)).
      * by rewrite overwritten_twice.
      * symmetry. apply dragged_overwritten, dragged_is_dragging.
Qed.

(** The pointer-up of a drag in which the pointer moved appends the
    current snapshot. *)
Lemma handleMouseUp_dragging e uuid st rs :
  isPanning st = false ->
  Action.type (actionState st) = moving ∨ Action.type (actionState st) = resizing ->
  Action.is_dragging (actionState st) = true ->
  rooms st = Some rs ->
  handleMouseUp e uuid st
  = Some (setActionState Action.idle (set_hist (pushed rs (hist st)) st)).
Proof.
  intros Hpan Hty Hdrag Hrs. unfold handleMouseUp.
  rewrite Hrs, Hpan, Hdrag. cbn [mbind option_bind].
  assert (Hpush : ∀ st0, hist st0 = hist st ->
            setRooms (History.Value rs) false st0
            = Some (set_hist (pushed rs (hist st)) st0)).
  { intros st0 Hst0. unfold setRooms. rewrite Hst0, setState_append.
    - done.
    - apply in_range_state. by exists rs. }
  destruct Hty as [Hty|Hty]; rewrite Hty; cbn [bool_decide andb];
    rewrite ?bool_decide_eq_true_2, ?bool_decide_eq_false_2 by done;
    cbn [andb mbind option_bind]; rewrite Hpush by done; done.
Qed.

(** What a complete drag does to the history: the slot that held the
    pre-drag snapshot holds the final room list, and so does the one
    appended entry; an [undo()] at once after the pointer-up therefore
    shows the final room list again. *)
Lemma drag_gesture_history st e moves e2 uuid rs :
  drag_in_progress st -> rooms st = Some rs ->
  ∃ st' final,
    run ((MouseMove <$> e :: moves) ++ [MouseUp e2 uuid]) st = Some st'
    ∧ History.history (hist st')
      = take (History.index (hist st)) (History.history (hist st)) ++ [final; final]
    ∧ History.index (hist st') = S (History.index (hist st))
    ∧ rooms st' = Some final
    ∧ rooms (undo st') = Some final.
Proof.
  intros Hdrag Hrs. destruct (drag_moves e moves st rs Hdrag Hrs) as [final Hrun].
  rewrite run_app, Hrun. cbn [mbind option_bind run step].
  assert (Hrs' : rooms (overwritten (λ _, final) rs (dragged st)) = Some final).
  { apply (rooms_overwritten (λ _, final)). by rewrite rooms_dragged. }
  assert (Hdrag' : drag_in_progress (overwritten (λ _, final) rs (dragged st)))
    by (by apply drag_in_progress_dragged in Hdrag).
  rewrite (handleMouseUp_dragging e2 uuid _ final);
    [|apply Hdrag'| |apply dragged_is_dragging|done].
  2:{ destruct Hdrag' as (_ & _ & [[? _]|[? _]]); auto. }
  cbn [mbind option_bind]. eexists _, final. split; [reflexivity|].
  apply lookup_lt_Some in Hrs.
  unfold rooms, History.state, undo, History.undo, overwritten, pushed.
  cbn [hist set_hist setActionState History.history History.index].
  rewrite hist_dragged. destruct (hist st) as [hs i].
  cbn [History.history History.index] in *.
  rewrite decide_True by lia. cbn [History.history History.index].
  assert (Htake : take (S i) (<[i:=final]> hs) = take i hs ++ [final]).
  { rewrite (take_S_r _ _ final).
    - by rewrite take_insert_ge by lia.
    - by apply list_lookup_insert_eq. }
  rewrite Htake, <- app_assoc. cbn [app].
  assert (Hlen : length (take i hs) = i) by (rewrite length_take; lia).
  split; [done|]. split; [done|]. split.
  - rewrite lookup_app_r by lia. rewrite Hlen.
    by replace (S i - i) with 1 by lia.
  - rewrite lookup_app_r by lia. rewrite Hlen.
    by replace (S i - 1 - i) with 0 by lia.
Qed.

(** C1. At the drag of room A by the world delta (23,17) from the
    initial state, the history gains exactly one appended entry whatever
    the number of pointer-move steps, but [undo()] at once after the
    pointer-up does not restore the pre-drag room list: the overwrites of
    the pointer-move steps have replaced the pre-drag snapshot in its
    slot, which now holds the moved rooms like the appended entry. *)
Theorem drag_then_undo_keeps_dragged_rooms :
  ∃ st',
    run dragA start = Some st'
    ∧ History.history (hist st') = [[roomA_moved; roomB]; [roomA_moved; roomB]]
    ∧ History.index (hist st') = 1
    ∧ rooms start = Some [roomA; roomB]
    ∧ rooms (undo st') = Some [roomA_moved; roomB]
    ∧ rooms (undo st') ≠ rooms start.
Proof.
  eexists. split; [vm_compute; reflexivity|].
  repeat split. discriminate.
Qed.

End DragFacts.

(** ** Locked rooms and pointer events *)

Module LockFacts.
Import App Pointer Writes Lock Scenario HistoryFacts StepFacts DrawFacts.

Lemma handleMouseDown_hist e st : hist (handleMouseDown e st) = hist st.
Proof.
  unfold handleMouseDown. case_decide; [done|].
  destruct (mode st); [|done]. by case_decide.
Qed.


Lemma handleWheel_hist e st :
  hist (handleWheel e st) = hist st ∧ actionState (handleWheel e st) = actionState st.
Proof. unfold handleWheel. by destruct (canvasRef st). Qed.

(** A pointer-down on the body of a locked room only bubbles to the
    canvas. *)
Lemma locked_room_mousedown e room st :
  Room.is_locked room = true ->
  step (MouseDownRoom e room) st = Some (handleMouseDown e st).
Proof.
  intros Hlocked. cbn [step]. unfold handleRoomMouseDown. rewrite Hlocked.
  by destruct (mode st).
Qed.

(** A pointer-down on a handle of a locked room does nothing. *)
Lemma locked_resize_start e room handle st :
  Room.is_locked room = true -> handleResizeStart e room handle st = st.
Proof.
  intros Hlocked. unfold handleResizeStart. rewrite Hlocked.
  by rewrite orb_true_r.
Qed.










Lemma state_pushed {T : Type} (v : T) (h : History.t T) :
  History.in_range h -> History.state (pushed v h) = Some v.
Proof.
  unfold History.in_range, History.state, pushed. intros Hlt.
  cbn [History.history History.index].
  rewrite lookup_app_r; rewrite length_take; [|lia].
  by replace (S (History.index h) - _) with 0 by lia.
Qed.

Lemma setRooms_value v st :
  is_Some (rooms st) ->
  setRooms (History.Value v) false st = Some (set_hist (pushed v (hist st)) st).
Proof.
  intros Hrs. unfold setRooms. rewrite setState_append; [done|].
  by apply in_range_state.
Qed.










End LockFacts.

(** ** Loading a plan *)

Module LoadFacts.
Import App Writes Scenario Files Load HistoryFacts LockFacts.

Lemma js_in_Obj k fields : js_in k (Json.Obj fields) = Ok (bool_decide (k ∈ fields.*1)).
Proof. done. Qed.

Lemma and_then_true a b : and_then a b = Ok true -> a = Ok true ∧ b = Ok true.
Proof. destruct a as [[]| |]; by cbn. Qed.

(** A record that passes the check has every required field. *)
Lemma isRoomRecord_true r :
  isRoomRecord r = Ok true -> ∀ k, k ∈ REQUIRED -> hasField k r.
Proof.
  intros Hr k Hk. unfold isRoomRecord in Hr.
  repeat (apply and_then_true in Hr as [? Hr]).
  destruct r as [| | | | |fields]; try discriminate.
  rewrite js_in_Obj in *. simplify_eq. cbn [hasField].
  unfold REQUIRED in Hk.
  repeat (apply elem_of_cons in Hk as [->|Hk];
          [by eapply bool_decide_eq_true_1|]).
  by apply elem_of_nil in Hk.
Qed.

Lemma isRoomRecord_typed r : isRoomRecord r ≠ Untyped.
Proof.
  destruct r as [| | | | |fields]; try done.
  unfold isRoomRecord, and_then. rewrite !js_in_Obj. cbn [mbind result_bind].
  repeat (destruct (bool_decide _); [|done]). done.
Qed.

(** A list with a record that lacks a required field does not pass. *)
Lemma every_lacking l r :
  r ∈ l -> lacksField r ->
  every isRoomRecord l = Ok false ∨ every isRoomRecord l = Throw.
Proof.
  intros Hin (k & Hk & Hlacks). induction l as [|r' l IH]; [by apply elem_of_nil in Hin|].
  cbn [every]. pose proof (isRoomRecord_typed r') as Htyped.
  destruct (isRoomRecord r') as [[]| |] eqn:Hr'; cbn [mbind result_bind]; auto; [|done].
  apply elem_of_cons in Hin as [->|Hin]; [|by apply IH].
  destruct Hlacks. by apply isRoomRecord_true.
Qed.

(** C7. When the parsed content of a file is not an array, or one of the
    room records lacks one of the fields id, name, x, y, width, height,
    color and zIndex (or the content is not text, or not JSON), the
    callback shows the alert once, applies no record, and leaves the
    state of the component, with its room list and history, as it is. *)
Theorem malformed_file_rejected (text : option Json.value) (st : AppState) :
  text = None
  ∨ (∃ v, text = Some v ∧ ∀ l, v ≠ Json.Arr l)
  ∨ (∃ l r, text = Some (Json.Arr l) ∧ r ∈ l ∧ lacksField r) ->
  onload text st = Some (st, [ALERT]).
Proof.
  intros Hbad. unfold onload.
  assert (Hthrow : sanitizedRooms text = Throw); [|by rewrite Hthrow].
  destruct Hbad as [->|[(v & -> & Hv)|(l & r & -> & Hr & Hlacks)]]; [done|..].
  - destruct v; try done. by destruct (Hv l).
  - cbn [sanitizedRooms].
    destruct (every_lacking l r Hr Hlacks) as [-> | ->]; done.
Qed.

Lemma malformed_file_rejected_witness :
  onload (Some (Json.Arr [Json.Obj [("id", Json.Str "hall"); ("x", Json.Num 0)]%string]))
         start
  = Some (start, [ALERT]).
Proof.
  apply malformed_file_rejected. right. right. eexists _, _.
  split; [reflexivity|]. split; [left|].
  exists "name"%string. split.
  - unfold REQUIRED. right. left.
  - cbn [hasField]. intros Hin.
    repeat (apply elem_of_cons in Hin as [Hin|Hin]; [discriminate Hin|]).
    by apply elem_of_nil in Hin.
Defined.

(** A load that shows no alert has sanitized the file and appended the
    result to the history. *)
Lemma onload_success text st st' :
  onload text st = Some (st', []) ->
  ∃ sanitized,
    sanitizedRooms text = Ok sanitized
    ∧ setRooms (History.Value sanitized) false st
      = Some (set_hist (hist st') st)
    ∧ st' = setSelectedRoomId None (set_hist (hist st') st).
Proof.
  unfold onload. intros Hload.
  destruct (sanitizedRooms text) as [sanitized| |]; [|done..].
  exists sanitized. split; [done|].
  destruct (setRooms (History.Value sanitized) false st) as [st1|] eqn:Hset; [|done].
  cbn [mbind option_bind] in Hload. simplify_eq.
  unfold setRooms in Hset.
  destruct (History.setState _ _ _) as [h|]; [|done].
  cbn [mbind option_bind] in Hset. by simplify_eq.
Qed.










(** After a draw that was undone the history has two entries, the first
    of them current; a successful load there replaces the second entry,
    and the history has two entries as before. *)
Lemma load_after_undo_keeps_length :
  ∃ st st',
    drawnAndUndone = Some st
    ∧ onload (Some (planWithDoor (1 # 2))) st = Some (st', [])
    ∧ length (History.history (hist st)) = 2
    ∧ length (History.history (hist st')) ≠ S (length (History.history (hist st))).
Proof.
  eexists _, _. split; [vm_compute; reflexivity|].
  split; [vm_compute; reflexivity|]. split; [reflexivity|]. cbn. lia.
Qed.

(** C10, amended.  For every successfully loaded file, the sanitized
    room list is written as one appended history entry, not an
    overwrite: the entries after the current one are dropped, the
    sanitized list becomes the last entry, and the index advances to it.
    The history then has [index + 2] entries, which is one more than
    before when nothing was redoable, and [undo()] at once after the load
    restores the room list that was current before the load. *)
Theorem load_appends_one_entry
    (text : option Json.value) (st st' : AppState) (rs : list Room.t) :
  rooms st = Some rs ->
  onload text st = Some (st', []) ->
  ∃ sanitized,
    sanitizedRooms text = Ok sanitized
    ∧ hist st' = pushed sanitized (hist st)
    ∧ rooms st' = Some sanitized
    ∧ History.index (hist st') = length (History.history (hist st')) - 1
    ∧ length (History.history (hist st')) = History.index (hist st) + 2
    ∧ (History.canRedo (hist st) = false ->
       length (History.history (hist st')) = S (length (History.history (hist st))))
    ∧ rooms (undo st') = Some rs.
Proof.
  intros Hrs Hload.
  apply onload_success in Hload as (sanitized & Hsan & Hset & ->).
  rewrite setRooms_value in Hset by (by exists rs). injection Hset as Hh.
  exists sanitized. split; [done|].
  cbn [hist setSelectedRoomId set_hist] in *. rewrite <- Hh.
  assert (Hin : History.in_range (hist st)) by (apply in_range_state; by exists rs).
  unfold rooms, undo in *. cbn [hist setSelectedRoomId set_hist].
  split; [done|]. split; [by apply state_pushed|].
  unfold History.in_range, History.state, History.canRedo, History.undo, pushed in *.
  cbn [History.history History.index].
  rewrite length_app, length_take. cbn [length].
  split; [lia|]. split; [lia|]. split.
  - intros Hredo%bool_decide_eq_false. lia.
  - rewrite decide_True by lia. cbn [History.history History.index].
    rewrite lookup_app_l by (rewrite length_take; lia).
    rewrite lookup_take_lt by lia.
    by replace (S (History.index (hist st)) - 1) with (History.index (hist st)) by lia.
Qed.

Lemma load_appends_one_entry_witness :
  let st' := setSelectedRoomId None
               (set_hist (pushed [hall (1 # 2)] (hist start)) start) in
  ∃ sanitized,
    sanitizedRooms (Some (planWithDoor (1 # 2))) = Ok sanitized
    ∧ hist st' = pushed sanitized (hist start)
    ∧ rooms st' = Some sanitized
    ∧ History.index (hist st') = length (History.history (hist st')) - 1
    ∧ length (History.history (hist st')) = History.index (hist start) + 2
    ∧ (History.canRedo (hist start) = false ->
       length (History.history (hist st'))
       = S (length (History.history (hist start))))
    ∧ rooms (undo st') = Some initialRooms.
Proof.
  intros st'.
  apply (load_appends_one_entry (Some (planWithDoor (1 # 2))) start st'
           initialRooms).
  - reflexivity.
  - vm_compute. reflexivity.
Defined.

End LoadFacts.

(** ** Every pointer event is handled *)

Module Progress.
Import App Pointer Writes HistoryFacts StepFacts DrawFacts LockFacts.

Lemma handleMouseMove_total e st :
  is_Some (rooms st) ->
  ∃ st', handleMouseMove e st = Some st' ∧ is_Some (rooms st').
Proof.
  intros [rs Hrs].
  assert (Hdrag : ∀ f, ∃ st', setRooms (History.Updater f) true (dragged st) = Some st'
                              ∧ is_Some (rooms st')).
  { intros f. eexists. split.
    - apply (setRooms_overwrite f rs). by rewrite rooms_dragged.
    - eexists. apply rooms_overwritten. by rewrite rooms_dragged. }
  unfold handleMouseMove. fold (dragged st).
  destruct (isPanning st); [by eexists|].
  destruct (Action.type (actionState st)), (Action.target (actionState st)),
           (Action.moveOffset (actionState st)), (Action.handle (actionState st));
    first [apply Hdrag | by eexists].
Qed.

Lemma handleMouseUp_total e uuid st :
  is_Some (rooms st) ->
  ∃ st', handleMouseUp e uuid st = Some st' ∧ is_Some (rooms st').
Proof.
  intros [rs Hrs]. unfold handleMouseUp. rewrite Hrs. cbn [mbind option_bind].
  set (st1 := if isPanning st then setIsPanning false st else st).
  assert (Hr1 : rooms st1 = Some rs) by (subst st1; by destruct (isPanning st)).
  assert (Hin : History.in_range (hist st1)) by (apply in_range_state; by exists rs).
  assert (Hpushed : ∀ v, rooms (set_hist (pushed v (hist st1)) st1) = Some v)
    by (intros v; by apply state_pushed).
  clearbody st1.
  destruct (Action.type (actionState st)) eqn:Hty;
    repeat match goal with
           | |- context [bool_decide (?a = ?b)] =>
               let v := eval vm_compute in (bool_decide (a = b)) in
               change (bool_decide (a = b)) with v
           end;
    cbn [andb mbind option_bind].
  - by eexists.
  - destruct (Action.startPoint (actionState st)) as [startPoint|];
      [|by eexists].
    destruct (ge _ GRID_SIZE && ge _ GRID_SIZE).
    + rewrite (setRooms_push _ rs) by done. cbn [mbind option_bind].
      eexists. split; [done|]. eexists. apply Hpushed.
    + by eexists.
  - destruct (Action.is_dragging (actionState st)); [|by eexists].
    rewrite setRooms_value by (by exists rs). cbn [mbind option_bind].
    eexists. split; [done|]. eexists. apply Hpushed.
  - destruct (Action.is_dragging (actionState st)); [|by eexists].
    rewrite setRooms_value by (by exists rs). cbn [mbind option_bind].
    eexists. split; [done|]. eexists. apply Hpushed.
Qed.

(** In a state that renders, every pointer event is handled and leads to
    a state that renders. *)
Lemma step_total ev st :
  is_Some (rooms st) -> ∃ st', step ev st = Some st' ∧ is_Some (rooms st').
Proof.
  intros Hrooms. destruct ev as [e|e room|e room handle|e|e uuid|e]; cbn [step].
  - eexists. split; [done|]. unfold rooms. by rewrite handleMouseDown_hist.
  - unfold handleRoomMouseDown.
    destruct (match mode st with draw => true | select => Room.is_locked room end).
    + eexists. split; [done|]. unfold rooms. by rewrite handleMouseDown_hist.
    + eexists. split; [done|]. by case_decide.
  - eexists. split; [done|]. unfold handleResizeStart. by destruct (_ || _ || _).
  - by apply handleMouseMove_total.
  - by apply handleMouseUp_total.
  - eexists. split; [done|]. unfold rooms.
    by destruct (handleWheel_hist e st) as [-> _].
Qed.

Lemma run_total evs st :
  is_Some (rooms st) -> ∃ st', run evs st = Some st' ∧ is_Some (rooms st').
Proof.
  revert st. induction evs as [|ev evs IH]; intros st Hrooms; [by eexists|].
  destruct (step_total ev st Hrooms) as (st1 & Hstep & Hrooms1).
  cbn [run]. rewrite Hstep. by apply IH.
Qed.

End Progress.

(** ** More on the history store *)

Module HistoryMore.
Import History HistoryFacts.
Section Facts.
Context {T : Type}.
Implicit Types (h : History.t T) (v : T).

(** In every state that calls of [setState], [undo] and [redo] can
    produce from the initial one, the history is not empty, [index]
    designates one of its entries, and the exposed [state] is that entry
    (never [undefined]). *)
Theorem reachable_state_defined (init : T) h :
  reachable init h ->
  0 < length (history h) ∧ index h < length (history h)
  ∧ ∃ v, state h = Some v ∧ v ∈ history h.
Proof.
  intros Hreach%reachable_in_range. unfold in_range in Hreach.
  split; [lia|]. split; [done|].
  destruct (lookup_lt_is_Some_2 (history h) (index h) Hreach) as [v Hv].
  exists v. split; [done|]. by eapply list_elem_of_lookup_2.
Qed.

(** [redo()] followed at once by [undo()] gives back the state before
    the redo, whenever [canRedo] holds. *)
Theorem redo_then_undo (init : T) h :
  reachable init h -> canRedo h = true -> undo (redo h) = h.
Proof.
  intros _ Hcan%bool_decide_eq_true. unfold redo.
  rewrite decide_True by done. unfold undo. cbn [index history].
  rewrite decide_True by lia. destruct h as [l i]. cbn [index history] in *.
  f_equal. lia.
Qed.



(** [undo()] called [n] times goes back [n] entries and stops at the
    first one; [redo()] called [n] times goes forward [n] entries and
    stops at the last one.  Neither changes the entries. *)
Theorem undo_redo_iterated h n :
  index h < length (history h) ->
  history (Nat.iter n undo h) = history h
  ∧ index (Nat.iter n undo h) = index h - n
  ∧ history (Nat.iter n redo h) = history h
  ∧ index (Nat.iter n redo h) = Nat.min (index h + n) (length (history h) - 1).
Proof.
  intros Hlt. induction n as [|n (IHu1 & IHu2 & IHr1 & IHr2)];
    [cbn; repeat split; lia|].
  change (Nat.iter (S n) undo h) with (undo (Nat.iter n undo h)).
  change (Nat.iter (S n) redo h) with (redo (Nat.iter n redo h)).
  set (u := Nat.iter n undo h) in *. set (r := Nat.iter n redo h) in *.
  unfold undo, redo. rewrite IHr1.
  repeat case_decide; cbn [history index]; repeat split; auto; lia.
Qed.

End Facts.

Lemma reachable_state_defined_witness :
  let h := {| history := [7; 8]; index := 0 |} in
  0 < length (history h) ∧ index h < length (history h)
  ∧ ∃ v, state h = Some v ∧ v ∈ history h.
Proof.
  apply (reachable_state_defined 7).
  apply (reach_undo 7 {| history := [7; 8]; index := 1 |}).
  apply (reach_setState 7 (useHistory 7) (Value 8) false); [|reflexivity].
  apply reach_init.
Defined.

Lemma redo_then_undo_witness :
  let h := {| history := [7; 8]; index := 0 |} in undo (redo h) = h.
Proof.
  apply (redo_then_undo 7); [|reflexivity].
  apply (reach_undo 7 {| history := [7; 8]; index := 1 |}).
  apply (reach_setState 7 (useHistory 7) (Value 8) false); [|reflexivity].
  apply reach_init.
Defined.



Lemma undo_redo_iterated_witness :
  let h := {| history := [7; 8; 9]; index := 1 |} in
  history (Nat.iter 5 undo h) = history h
  ∧ index (Nat.iter 5 undo h) = index h - 5
  ∧ history (Nat.iter 5 redo h) = history h
  ∧ index (Nat.iter 5 redo h) = Nat.min (index h + 5) (length (history h) - 1).
Proof. apply undo_redo_iterated. cbn. lia. Defined.

End HistoryMore.

(** ** More on snapping and the view transform *)

Module ViewMore.
Import App Pointer Geometry NumberFacts ViewFacts DrawFacts.
#[local] Open Scope Q_scope.










End ViewMore.

(** ** More on gestures *)

Module GestureMore.
Import App Pointer Geometry Writes NumberFacts HistoryFacts StepFacts DrawFacts
       DragFacts LockFacts ViewMore.
#[local] Open Scope Q_scope.

(** A press and release on an unlocked room without a pointer-move in
    between (a click with the select tool) selects the room and writes
    nothing to the history. *)
Theorem click_selects_without_write
    (st : AppState) (e e' : MouseEvent.t) (room : Room.t) (uuid : string) :
  mode st = select -> Room.is_locked room = false ->
  MouseEvent.button e = 0%nat -> is_Some (rooms st) ->
  ∃ st',
    run [MouseDownRoom e room; MouseUp e' uuid] st = Some st'
    ∧ hist st' = hist st
    ∧ selectedRoomId st' = Some (Room.id room)
    ∧ actionState st' = Action.idle
    ∧ viewTransform st' = viewTransform st.
Proof.
  intros Hmode Hunlocked Hbutton [rs Hrs]. cbn [run step].
  unfold handleRoomMouseDown. rewrite Hmode, Hunlocked, decide_True by done.
  cbn [mbind option_bind]. unfold handleMouseUp.
  change (rooms (setActionState _ (setSelectedRoomId _ st))) with (rooms st).
  rewrite Hrs. cbn [mbind option_bind actionState setActionState Action.type
                    Action.is_dragging Action.isDragging Action.startPoint andb].
  rewrite andb_false_r. cbn [mbind option_bind].
  eexists. split; [reflexivity|].
  by destruct (isPanning _).
Qed.

Lemma click_selects_without_write_witness :
  ∃ st',
    run [MouseDownRoom (Scenario.primary 60 60) Scenario.roomA;
         MouseUp (Scenario.primary 60 60) "unused"] Scenario.start = Some st'
    ∧ hist st' = hist Scenario.start
    ∧ selectedRoomId st' = Some "living-room-1"%string
    ∧ actionState st' = Action.idle
    ∧ viewTransform st' = viewTransform Scenario.start.
Proof.
  apply (click_selects_without_write Scenario.start (Scenario.primary 60 60)
           (Scenario.primary 60 60) Scenario.roomA "unused"); try reflexivity.
  by eexists.
Defined.





End GestureMore.

(** ** The drawn room, and integer coordinates *)

Module RoomMore.
Import App Pointer Geometry Writes NumberFacts HistoryFacts StepFacts DrawFacts
       DragFacts LockFacts.
#[local] Open Scope Q_scope.

Lemma Math_max_list_ge z zs : Forall (λ q, q <= Math_max_list z zs) (z :: zs).
Proof.
  unfold Math_max_list. revert z. induction zs as [|y zs IH]; intros z.
  { constructor; [apply Qle_refl|constructor]. }
  cbn [foldl]. specialize (IH (Math_max z y)).
  apply Forall_cons_1 in IH as [Hhead Htail].
  constructor; [|constructor; [|done]].
  - eapply Qle_trans; [|exact Hhead]. apply Q.le_max_l.
  - eapply Qle_trans; [|exact Hhead]. apply Q.le_max_r.
Qed.

Lemma min_plus_abs a b : Math_min a b + Math_abs (a - b) == Math_max a b.
Proof.
  unfold Math_min, Math_max, Math_abs.
  destruct (Q.min_spec a b) as [[Hlt ->]|[Hle ->]],
           (Q.max_spec a b) as [[Hlt' ->]|[Hle' ->]];
    apply (Qabs_case (a - b)); intros; lra.
Qed.

(** The room that a draw gesture proposes spans the rectangle between
    the two points (its left and top edges are the smaller, its right and
    bottom edges the larger coordinates), lies above every existing room
    (its zIndex is greater than all of theirs), takes its colour from the
    palette, and is unlocked and without features. *)
Theorem newRoom_spans_and_tops uuid (rs : list Room.t) (startPoint snappedEnd : Point.t) :
  let room := newRoom uuid rs startPoint snappedEnd in
  Room.x room = Math_min (Point.x startPoint) (Point.x snappedEnd)
  ∧ Room.y room = Math_min (Point.y startPoint) (Point.y snappedEnd)
  ∧ Room.x room + Room.width room == Math_max (Point.x startPoint) (Point.x snappedEnd)
  ∧ Room.y room + Room.height room == Math_max (Point.y startPoint) (Point.y snappedEnd)
  ∧ Forall (λ r, Room.zIndex r < Room.zIndex room) rs
  ∧ Room.color room ∈ ROOM_COLORS
  ∧ Room.is_locked room = false ∧ Room.features room = [].
Proof.
  intros room. split; [done|]. split; [done|].
  split; [apply min_plus_abs|]. split; [apply min_plus_abs|].
  split; [|split; [|done]].
  - unfold room, newRoom. cbn [Room.zIndex].
    destruct rs as [|r rs]; [constructor|]. cbn [fmap list_fmap].
    pose proof (Math_max_list_ge (Room.zIndex r) (Room.zIndex <$> rs)) as Hmax.
    change (Room.zIndex r :: (Room.zIndex <$> rs))
      with (Room.zIndex <$> (r :: rs)) in Hmax.
    rewrite Forall_fmap in Hmax.
    eapply Forall_impl; [exact Hmax|]. intros r0 Hr0. cbn in Hr0.
    set (m := Math_max_list _ _) in *. lra.
  - unfold room, newRoom. cbn [Room.color].
    destruct (lookup_lt_is_Some_2 ROOM_COLORS (length rs `mod` length ROOM_COLORS))
      as [c Hc].
    { apply Nat.mod_upper_bound. discriminate. }
    rewrite Hc. cbn [default]. by eapply list_elem_of_lookup_2.
Qed.

(** The pointer-up of a draw gesture: the room list is unchanged, or it
    is extended by the room drawn from the start point of the action to
    the snapped pointer position. *)
Lemma handleMouseUp_drawn e uuid st st' rs :
  rooms st = Some rs -> handleMouseUp e uuid st = Some st' ->
  actionState st' = Action.idle ∧ isPanning st' = false
  ∧ viewTransform st' = viewTransform st
  ∧ (rooms st' = Some rs
     ∨ ∃ startPoint,
         Action.startPoint (actionState st) = Some startPoint
         ∧ rooms st'
           = Some (rs ++ [newRoom uuid rs startPoint (snapPoint (getMouseWorldPos e st))])).
Proof.
  intros Hrs Hup. unfold handleMouseUp in Hup. rewrite Hrs in Hup.
  cbn [mbind option_bind] in Hup.
  set (st1 := if isPanning st then setIsPanning false st else st) in Hup.
  assert (Hr1 : rooms st1 = Some rs) by (subst st1; by destruct (isPanning st)).
  assert (Hp1 : isPanning st1 = false) by (subst st1; by destruct (isPanning st) eqn:?).
  assert (Hv1 : viewTransform st1 = viewTransform st)
    by (subst st1; by destruct (isPanning st)).
  assert (Hin : History.in_range (hist st1)) by (apply in_range_state; by exists rs).
  assert (Hpushed : rooms (set_hist (pushed rs (hist st1)) st1) = Some rs)
    by (by apply state_pushed).
  clearbody st1.
  destruct (Action.type (actionState st)) eqn:Hty;
    repeat match type of Hup with
           | context [bool_decide (?a = ?b)] =>
               let v := eval vm_compute in (bool_decide (a = b)) in
               change (bool_decide (a = b)) with v in Hup
           end;
    cbn [andb mbind option_bind] in Hup.
  - simplify_eq. repeat split; auto.
  - destruct (Action.startPoint (actionState st)) as [startPoint|];
      [|cbn [mbind option_bind] in Hup; simplify_eq; repeat split; auto].
    destruct (ge _ GRID_SIZE && ge _ GRID_SIZE) in Hup.
    + rewrite (setRooms_push _ rs) in Hup by done.
      cbn [mbind option_bind] in Hup. simplify_eq. repeat split; auto.
      right. eexists. split; [done|]. by apply state_pushed.
    + cbn [mbind option_bind] in Hup. simplify_eq. repeat split; auto.
  - destruct (Action.is_dragging (actionState st)).
    + rewrite setRooms_value in Hup by (by exists rs).
      cbn [mbind option_bind] in Hup. simplify_eq. repeat split; auto.
    + cbn [mbind option_bind] in Hup. simplify_eq. repeat split; auto.
  - destruct (Action.is_dragging (actionState st)).
    + rewrite setRooms_value in Hup by (by exists rs).
      cbn [mbind option_bind] in Hup. simplify_eq. repeat split; auto.
    + cbn [mbind option_bind] in Hup. simplify_eq. repeat split; auto.
Qed.

(** Releasing the pointer, or leaving the canvas, ends whatever gesture
    is under way: afterwards no action is in progress and the view is not
    panning; the view transform is untouched. *)
Theorem pointer_up_ends_gesture (e : MouseEvent.t) (uuid : string) (st : AppState) :
  is_Some (rooms st) ->
  ∃ st', handleMouseUp e uuid st = Some st'
         ∧ actionState st' = Action.idle ∧ isPanning st' = false
         ∧ viewTransform st' = viewTransform st ∧ is_Some (rooms st').
Proof.
  intros Hrooms.
  destruct (Progress.handleMouseUp_total e uuid st Hrooms) as (st' & Hup & Hrooms').
  destruct Hrooms as [rs Hrs].
  destruct (handleMouseUp_drawn e uuid st st' rs Hrs Hup) as (Hidle & Hpan & Hv & _).
  by exists st'.
Qed.

Lemma pointer_up_ends_gesture_witness :
  let st := handleMouseDown (Scenario.primary 5 5) Scenario.start in
  ∃ st', handleMouseUp (Scenario.primary 9 9) "unused" st = Some st'
         ∧ actionState st' = Action.idle ∧ isPanning st' = false
         ∧ viewTransform st' = viewTransform st ∧ is_Some (rooms st').
Proof. intros st. apply pointer_up_ends_gesture. by eexists. Defined.

End RoomMore.

(** ** Integer coordinates are kept *)

Module TidyFacts.
Import App Pointer Geometry Writes Tidy NumberFacts HistoryFacts StepFacts DrawFacts
       DragFacts LockFacts RoomMore.
#[local] Open Scope Q_scope.

Lemma Math_round_is_int q : is_int (Math_round q).
Proof. by eexists. Qed.

Lemma is_int_abs q : is_int q -> is_int (Math_abs q).
Proof.
  intros Hq. unfold Math_abs. apply (Qabs_case q); intros _; [done|].
  destruct Hq as [n Hn]. exists (- n)%Z. rewrite Hn, inject_Z_opp. reflexivity.
Qed.

Lemma snapPoint_integer p : integer_point (snapPoint p).
Proof. split; apply on_grid_is_int, snapToGrid_on_grid. Qed.

Lemma moveRoom_integer t off pos r : integer_rect r -> integer_rect (moveRoom t off pos r).
Proof.
  intros (Hx & Hy & Hw & Hh). unfold moveRoom. case_decide; [|done].
  repeat split; cbn; auto; apply on_grid_is_int, snapToGrid_on_grid.
Qed.

Lemma resizeRoom_integer t handle p r :
  integer_rect r -> integer_rect (resizeRoom t handle p r).
Proof.
  intros Hr. unfold resizeRoom. case_decide; [|done].
  destruct handle; repeat split; apply Math_round_is_int.
Qed.

Lemma newRoom_integer uuid rs startPoint snappedEnd :
  integer_point startPoint -> integer_point snappedEnd ->
  integer_rect (newRoom uuid rs startPoint snappedEnd).
Proof.
  intros [Hsx Hsy] [Hex Hey]. repeat split; cbn [newRoom Room.x Room.y Room.width Room.height].
  - by apply is_int_min.
  - by apply is_int_min.
  - by apply is_int_abs, is_int_minus.
  - by apply is_int_abs, is_int_minus.
Qed.

Lemma handleMouseMove_tidy e st st' : tidy st -> handleMouseMove e st = Some st' -> tidy st'.
Proof.
  intros [Hsp (rs & Hrs & Hint)] Hstep.
  assert (Hkeep : ∀ st1, actionState st1 = actionState st -> rooms st1 = Some rs -> tidy st1).
  { intros st1 Ha Hr. split; [by rewrite Ha|]. by exists rs. }
  assert (Hdrag : ∀ f, (∀ r, integer_rect r -> integer_rect (f r)) ->
                       tidy (overwritten (map f) rs (dragged st))).
  { intros f Hf. split.
    - cbn [overwritten actionState set_hist]. unfold dragged.
      by destruct (Action.is_dragging _).
    - eexists. split; [apply rooms_overwritten; by rewrite rooms_dragged|].
      by apply Forall_fmap, (Forall_impl _ _ _ Hint). }
  destruct (isPanning st) eqn:Hpan.
  { unfold handleMouseMove in Hstep. rewrite Hpan in Hstep. simplify_eq.
    by apply Hkeep. }
  destruct (Action.type (actionState st)) eqn:Hty.
  - unfold handleMouseMove in Hstep. rewrite Hpan, Hty in Hstep. simplify_eq.
    by apply Hkeep.
  - unfold handleMouseMove in Hstep. rewrite Hpan, Hty in Hstep. simplify_eq.
    by apply Hkeep.
  - destruct (Action.target (actionState st)) as [t|] eqn:Htg;
      [destruct (Action.moveOffset (actionState st)) as [off|] eqn:Hoff|].
    + rewrite (handleMouseMove_moving e st t off rs) in Hstep by done.
      simplify_eq. apply Hdrag. apply moveRoom_integer.
    + unfold handleMouseMove in Hstep. rewrite Hpan, Hty, Htg, Hoff in Hstep.
      simplify_eq. by apply Hkeep.
    + unfold handleMouseMove in Hstep. rewrite Hpan, Hty, Htg in Hstep.
      simplify_eq. by apply Hkeep.
  - destruct (Action.target (actionState st)) as [t|] eqn:Htg;
      [destruct (Action.handle (actionState st)) as [handle|] eqn:Hh|].
    + rewrite (handleMouseMove_resizing e st t handle rs) in Hstep by done.
      simplify_eq. apply Hdrag. apply resizeRoom_integer.
    + unfold handleMouseMove in Hstep. rewrite Hpan, Hty, Htg, Hh in Hstep.
      destruct (Action.moveOffset (actionState st)); simplify_eq; by apply Hkeep.
    + unfold handleMouseMove in Hstep. rewrite Hpan, Hty, Htg in Hstep.
      destruct (Action.moveOffset (actionState st)),
               (Action.handle (actionState st)); simplify_eq; by apply Hkeep.
Qed.

Lemma handleMouseDown_tidy e st : tidy st -> tidy (handleMouseDown e st).
Proof.
  intros [Hsp (rs & Hrs & Hint)]. split.
  - unfold handleMouseDown. case_decide; [done|].
    destruct (mode st); [by case_decide|].
    cbn. intros sp [= <-]. apply snapPoint_integer.
  - exists rs. split; [|done]. unfold rooms. by rewrite handleMouseDown_hist.
Qed.

Lemma step_tidy ev st st' : tidy st -> step ev st = Some st' -> tidy st'.
Proof.
  intros Htidy Hstep. destruct ev as [e|e room|e room handle|e|e uuid|e];
    cbn [step] in Hstep.
  - simplify_eq. by apply handleMouseDown_tidy.
  - unfold handleRoomMouseDown in Hstep.
    destruct (match mode st with draw => true | select => Room.is_locked room end);
      simplify_eq; [by apply handleMouseDown_tidy|].
    case_decide; [|done]. destruct Htidy as [_ Hrooms]. by split.
  - simplify_eq. unfold handleResizeStart. destruct (_ || _ || _); [done|].
    destruct Htidy as [_ Hrooms]. by split.
  - by eapply handleMouseMove_tidy.
  - destruct Htidy as [Hsp (rs & Hrs & Hint)].
    destruct (handleMouseUp_drawn e uuid st st' rs Hrs Hstep)
      as (Hidle & _ & _ & [Hsame|(sp & Hstart & Hnew)]).
    + split; [by rewrite Hidle|]. by exists rs.
    + split; [by rewrite Hidle|]. eexists. split; [exact Hnew|].
      apply Forall_app. split; [done|]. constructor; [|constructor].
      apply newRoom_integer; [by apply Hsp|apply snapPoint_integer].
  - simplify_eq. destruct Htidy as [Hsp (rs & Hrs & Hint)].
    destruct (handleWheel_hist e st) as [Hh Ha]. split; [by rewrite Ha|].
    exists rs. split; [|done]. unfold rooms. by rewrite Hh.
Qed.

(** Pointer events keep the coordinates of the rooms integer: from a
    state in which every room has integer [x], [y], [width] and [height],
    every sequence of pointer events is handled and leads to such a state
    again, whatever the (fractional) pointer positions, pans and zooms on
    the way. *)
Theorem pointer_events_keep_integer_rects (evs : list Event) (st : AppState) :
  tidy st -> ∃ st', run evs st = Some st' ∧ tidy st'.
Proof.
  revert st. induction evs as [|ev evs IH]; intros st Htidy; [by exists st|].
  assert (Hrooms : is_Some (rooms st)).
  { destruct Htidy as [_ (rs & Hrs & _)]. by exists rs. }
  destruct (Progress.step_total ev st Hrooms) as (st1 & Hstep & _).
  cbn [run]. rewrite Hstep. cbn [mbind option_bind].
  apply IH. by eapply step_tidy.
Qed.

Lemma pointer_events_keep_integer_rects_witness :
  ∃ st', run Scenario.dragA Scenario.start = Some st' ∧ tidy st'.
Proof.
  apply pointer_events_keep_integer_rects. split; [done|].
  exists initialRooms. split; [reflexivity|].
  repeat constructor; cbn; by eexists.
Defined.

End TidyFacts.

(** ** Edits from the inspector *)

Module EditFacts.
Import App Writes Edit Files HistoryFacts StepFacts DrawFacts LockFacts.

Lemma updateRoom_id id nv r : Partial.id nv = None -> Room.id (updateRoom id nv r) = Room.id r.
Proof. intros Hnv. unfold updateRoom. case_decide; [|done]. cbn. by rewrite Hnv. Qed.

Lemma rooms_undo_pushed v st st0 :
  is_Some (rooms st) -> hist st0 = pushed v (hist st) -> rooms (undo st0) = rooms st.
Proof.
  intros Hin%in_range_state Hh. unfold History.in_range in Hin.
  unfold rooms, undo, History.undo, History.state.
  cbn [hist set_hist]. rewrite Hh. unfold pushed. cbn [History.history History.index].
  rewrite decide_True by lia. cbn [History.history History.index].
  rewrite lookup_app_l by (rewrite length_take; lia).
  rewrite lookup_take_lt by lia. f_equal. lia.
Qed.

(** An edit of the room [id] is one appended history entry: it changes
    the rooms with that identifier and no other, keeps the number and
    order of the rooms, and is taken back by one [undo()].  When no room
    has the identifier the room list stays as it is, and the entry is
    appended all the same. *)
Theorem update_room_is_one_step
    (id : string) (newValues : Partial.t) (st : AppState) (rs : list Room.t) :
  rooms st = Some rs ->
  ∃ st' rs',
    handleUpdateRoom id newValues st = Some st'
    ∧ rooms st' = Some rs' ∧ hist st' = pushed rs' (hist st)
    ∧ length rs' = length rs
    ∧ (∀ i r, rs !! i = Some r ->
              rs' !! i = Some (if decide (Room.id r = id) then assign r newValues else r))
    ∧ (id ∉ Room.id <$> rs -> rs' = rs)
    ∧ rooms (undo st') = Some rs
    ∧ selectedRoomId st' = selectedRoomId st.
Proof.
  intros Hrs. unfold handleUpdateRoom. rewrite (setRooms_push _ rs) by done.
  eexists _, _. split; [done|].
  split; [apply state_pushed; apply in_range_state; by exists rs|].
  split; [done|]. split; [by rewrite length_fmap|]. split; [|split; [|split; [|done]]].
  - intros i r Hi. rewrite list_lookup_fmap, Hi. done.
  - intros Hnot. rewrite <- (list_fmap_id rs) at 2. apply list_fmap_ext.
    intros i r Hi. unfold updateRoom. rewrite decide_False; [done|].
    intros <-. apply Hnot. apply list_elem_of_fmap_2. by eapply list_elem_of_lookup_2.
  - rewrite <- Hrs. apply (rooms_undo_pushed (updateRoom id newValues <$> rs)); [by exists rs|done].
Qed.

Lemma update_room_is_one_step_witness :
  ∃ st' rs',
    handleUpdateRoom "kitchen-1"
      (Partial.Build None None None None None (Some "Galley"%string) None None None None)
      Scenario.start = Some st'
    ∧ rooms st' = Some rs' ∧ hist st' = pushed rs' (hist Scenario.start)
    ∧ length rs' = length initialRooms
    ∧ (∀ i r, initialRooms !! i = Some r ->
              rs' !! i
              = Some (if decide (Room.id r = "kitchen-1"%string)
                      then assign r (Partial.Build None None None None None
                                       (Some "Galley"%string) None None None None)
                      else r))
    ∧ ("kitchen-1"%string ∉ Room.id <$> initialRooms -> rs' = initialRooms)
    ∧ rooms (undo st') = Some initialRooms
    ∧ selectedRoomId st' = selectedRoomId Scenario.start.
Proof. by apply update_room_is_one_step. Defined.

(** Deleting the room [id] removes the rooms with that identifier and
    keeps the others in their order, in one appended history entry that
    one [undo()] takes back; the selection is cleared, so that no room is
    selected afterwards. *)
Theorem delete_room_removes_it (id : string) (st : AppState) (rs : list Room.t) :
  rooms st = Some rs ->
  ∃ st' rs',
    handleDeleteRoom id st = Some st'
    ∧ rooms st' = Some rs' ∧ hist st' = pushed rs' (hist st)
    ∧ (∀ r, r ∈ rs' ↔ r ∈ rs ∧ Room.id r ≠ id)
    ∧ sublist rs' rs
    ∧ selectedRoomId st' = None ∧ selectedRoom st' = None
    ∧ rooms (undo st') = Some rs.
Proof.
  intros Hrs. unfold handleDeleteRoom. rewrite (setRooms_push _ rs) by done.
  cbn [mbind option_bind]. eexists _, _. split; [done|].
  assert (Hrooms :
            rooms (setSelectedRoomId None
                     (set_hist (pushed (filter (λ r, Room.id r ≠ id) rs) (hist st)) st))
            = Some (filter (λ r, Room.id r ≠ id) rs)).
  { apply (state_pushed (filter (λ r, Room.id r ≠ id) rs)).
    apply in_range_state. by exists rs. }
  split; [exact Hrooms|]. split; [done|].
  split; [intros r; rewrite list_elem_of_filter; tauto|].
  split; [apply sublist_filter|]. split; [done|]. split.
  - unfold selectedRoom. by rewrite Hrooms.
  - rewrite <- Hrs.
    apply (rooms_undo_pushed (filter (λ r, Room.id r ≠ id) rs)); [by exists rs|done].
Qed.

Lemma delete_room_removes_it_witness :
  ∃ st' rs',
    handleDeleteRoom "kitchen-1" Scenario.start = Some st'
    ∧ rooms st' = Some rs' ∧ hist st' = pushed rs' (hist Scenario.start)
    ∧ (∀ r, r ∈ rs' ↔ r ∈ initialRooms ∧ Room.id r ≠ "kitchen-1"%string)
    ∧ sublist rs' initialRooms
    ∧ selectedRoomId st' = None ∧ selectedRoom st' = None
    ∧ rooms (undo st') = Some initialRooms.
Proof. by apply delete_room_removes_it. Defined.

End EditFacts.

(** ** The inspector panel *)

Module InspectorFacts.
Import App Pointer Writes Edit Inspector Files HistoryFacts StepFacts DrawFacts
       LockFacts EditFacts.
#[local] Open Scope Q_scope.

Lemma selectedRoom_Some st sel :
  selectedRoom st = Some sel ->
  ∃ rs i,
    rooms st = Some rs ∧ selectedRoomId st = Some (Room.id sel)
    ∧ list_find (λ r, Room.id r = Room.id sel) rs = Some (i, sel) ∧ sel ∈ rs.
Proof.
  unfold selectedRoom. intros Hsel.
  destruct (rooms st) as [rs|]; [|done]. cbn [mbind option_bind] in Hsel.
  destruct (selectedRoomId st) as [s|]; [|done]. cbn [mbind option_bind] in Hsel.
  destruct (list_find _ rs) as [[i r]|] eqn:Hfind; [|done]. injection Hsel as ->.
  pose proof Hfind as (Hi & Hid & _)%list_find_Some. subst s.
  exists rs, i. repeat split; auto. by eapply list_elem_of_lookup_2.
Qed.

(** After an edit of the selected room that does not give a new
    identifier, the selected room is the edited one. *)
Lemma update_selected newValues st sel rs :
  rooms st = Some rs -> selectedRoom st = Some sel -> Partial.id newValues = None ->
  ∃ st',
    handleUpdateRoom (Room.id sel) newValues st = Some st'
    ∧ rooms st' = Some (updateRoom (Room.id sel) newValues <$> rs)
    ∧ selectedRoom st' = Some (assign sel newValues)
    ∧ rooms (undo st') = Some rs ∧ sel ∈ rs.
Proof.
  intros Hrs (rs0 & i & Hrs0 & Hsid & Hfind & Hin)%selectedRoom_Some Hnv.
  assert (rs0 = rs) as -> by congruence.
  unfold handleUpdateRoom. rewrite (setRooms_push _ rs) by done.
  change (map (updateRoom (Room.id sel) newValues) rs)
    with (updateRoom (Room.id sel) newValues <$> rs).
  eexists. split; [done|].
  assert (Hrooms' : rooms (set_hist (pushed (updateRoom (Room.id sel) newValues <$> rs)
                                      (hist st)) st)
                    = Some (updateRoom (Room.id sel) newValues <$> rs)).
  { apply (state_pushed (updateRoom (Room.id sel) newValues <$> rs)).
    apply in_range_state. by exists rs. }
  split; [done|]. split; [|split; [|done]].
  - unfold selectedRoom. rewrite Hrooms'. cbn [mbind option_bind selectedRoomId set_hist].
    rewrite Hsid. cbn [mbind option_bind]. rewrite list_find_fmap.
    rewrite (list_find_ext _ (λ r, Room.id r = Room.id sel)), Hfind.
    + cbn. unfold updateRoom. by rewrite decide_True.
    + intros r. cbn. by rewrite updateRoom_id.
  - rewrite <- Hrs.
    by apply (rooms_undo_pushed (updateRoom (Room.id sel) newValues <$> rs));
      [exists rs|].
Qed.

Lemma positionsInRange_update id fs rs :
  Forall (λ f, 0 <= WallFeature.position f <= 1) fs ->
  positionsInRange rs -> positionsInRange (updateRoom id (featuresEdit fs) <$> rs).
Proof.
  intros Hfs Hrs. unfold positionsInRange in *. apply Forall_fmap.
  eapply Forall_impl; [exact Hrs|]. intros r Hr. cbn. unfold updateRoom.
  by case_decide.
Qed.

(** [Add Door] and [Add Window] give the selected room, locked or not,
    one more feature at the end of its list: on the top wall, at
    position 1/2, 40 or 60 wide, with the fresh identifier.  The
    rectangle, layer and lock of the room stay, positions that were in
    [0,1] still are, and one [undo()] takes the feature away. *)
Theorem add_feature_appends_centred
    (uuid : string) (type : FeatureType) (st : AppState) (sel : Room.t)
    (rs : list Room.t) :
  rooms st = Some rs -> selectedRoom st = Some sel ->
  ∃ st' sel' f rs',
    handleAddFeature uuid type st = Some st'
    ∧ selectedRoom st' = Some sel' ∧ rooms st' = Some rs'
    ∧ Room.features sel' = Room.features sel ++ [f]
    ∧ WallFeature.id f = uuid ∧ WallFeature.type f = type
    ∧ WallFeature.wall f = wall_top ∧ WallFeature.position f = 1 # 2
    ∧ WallFeature.width f = match type with door => 40 | window => 60 end
    ∧ (Room.x sel', Room.y sel', Room.width sel', Room.height sel')
      = (Room.x sel, Room.y sel, Room.width sel, Room.height sel)
    ∧ Room.zIndex sel' = Room.zIndex sel ∧ Room.locked sel' = Room.locked sel
    ∧ (positionsInRange rs -> positionsInRange rs')
    ∧ rooms (undo st') = Some rs.
Proof.
  intros Hrs Hsel. unfold handleAddFeature. rewrite Hsel.
  set (f := WallFeature.Build uuid type wall_top (1 # 2) _).
  destruct (update_selected (featuresEdit (Room.features sel ++ [f])) st sel rs)
    as (st' & Hup & Hrooms & Hsel' & Hundo & Hin); [done..|].
  exists st', (assign sel (featuresEdit (Room.features sel ++ [f]))), f.
  eexists. split; [exact Hup|]. split; [exact Hsel'|]. split; [exact Hrooms|].
  repeat (split; [done|]). split; [|done].
  intros Hrange. apply positionsInRange_update; [|done].
  apply Forall_app. split.
  - unfold positionsInRange in Hrange. rewrite Forall_forall in Hrange. by apply Hrange.
  - constructor; [|constructor]. cbn. split; discriminate.
Qed.

Lemma add_feature_appends_centred_witness :
  let st := setSelectedRoomId (Some "kitchen-1"%string) Scenario.start in
  ∃ st' sel' f rs',
    handleAddFeature "door-1" door st = Some st'
    ∧ selectedRoom st' = Some sel' ∧ rooms st' = Some rs'
    ∧ Room.features sel' = Room.features Scenario.roomB ++ [f]
    ∧ WallFeature.id f = "door-1"%string ∧ WallFeature.type f = door
    ∧ WallFeature.wall f = wall_top ∧ WallFeature.position f = 1 # 2
    ∧ WallFeature.width f = 40
    ∧ (Room.x sel', Room.y sel', Room.width sel', Room.height sel')
      = (Room.x Scenario.roomB, Room.y Scenario.roomB,
         Room.width Scenario.roomB, Room.height Scenario.roomB)
    ∧ Room.zIndex sel' = Room.zIndex Scenario.roomB
    ∧ Room.locked sel' = Room.locked Scenario.roomB
    ∧ (positionsInRange initialRooms -> positionsInRange rs')
    ∧ rooms (undo st') = Some initialRooms.
Proof.
  intros st.
  apply (add_feature_appends_centred "door-1" door st Scenario.roomB initialRooms);
    reflexivity.
Defined.



(** The lock button inverts the lock of the selected room and changes
    nothing else of it.  Once it has locked the room, a pointer-down on
    the body of the room only bubbles to the canvas, and one on a handle
    does nothing: no move or resize starts. *)
Theorem toggle_lock_inverts (st : AppState) (sel : Room.t) (rs : list Room.t) :
  rooms st = Some rs -> selectedRoom st = Some sel ->
  ∃ st' sel',
    handleToggleLock st = Some st'
    ∧ selectedRoom st' = Some sel'
    ∧ Room.is_locked sel' = negb (Room.is_locked sel)
    ∧ (Room.x sel', Room.y sel', Room.width sel', Room.height sel')
      = (Room.x sel, Room.y sel, Room.width sel, Room.height sel)
    ∧ Room.zIndex sel' = Room.zIndex sel ∧ Room.features sel' = Room.features sel
    ∧ (Room.name sel', Room.color sel', Room.id sel')
      = (Room.name sel, Room.color sel, Room.id sel)
    ∧ (Room.is_locked sel = false ->
       ∀ e handle,
         step (MouseDownRoom e sel') st' = Some (handleMouseDown e st')
         ∧ step (MouseDownHandle e sel' handle) st' = Some st')
    ∧ rooms (undo st') = Some rs.
Proof.
  intros Hrs Hsel. unfold handleToggleLock. rewrite Hsel.
  set (nv := Partial.Build _ _ _ _ _ _ _ _ _ _).
  destruct (update_selected nv st sel rs)
    as (st' & Hup & Hrooms & Hsel' & Hundo & Hin); [done..|].
  exists st', (assign sel nv). split; [exact Hup|]. split; [exact Hsel'|].
  repeat (split; [done|]). split; [|done].
  intros Hunlocked e handle.
  assert (Hlocked : Room.is_locked (assign sel nv) = true)
    by (cbn; by rewrite Hunlocked).
  split; [by apply locked_room_mousedown|].
  cbn [step]. by rewrite locked_resize_start.
Qed.

Lemma toggle_lock_inverts_witness :
  let st := setSelectedRoomId (Some "kitchen-1"%string) Scenario.start in
  ∃ st' sel',
    handleToggleLock st = Some st'
    ∧ selectedRoom st' = Some sel'
    ∧ Room.is_locked sel' = negb (Room.is_locked Scenario.roomB)
    ∧ (Room.x sel', Room.y sel', Room.width sel', Room.height sel')
      = (Room.x Scenario.roomB, Room.y Scenario.roomB,
         Room.width Scenario.roomB, Room.height Scenario.roomB)
    ∧ Room.zIndex sel' = Room.zIndex Scenario.roomB
    ∧ Room.features sel' = Room.features Scenario.roomB
    ∧ (Room.name sel', Room.color sel', Room.id sel')
      = (Room.name Scenario.roomB, Room.color Scenario.roomB, Room.id Scenario.roomB)
    ∧ (Room.is_locked Scenario.roomB = false ->
       ∀ e handle,
         step (MouseDownRoom e sel') st' = Some (handleMouseDown e st')
         ∧ step (MouseDownHandle e sel' handle) st' = Some st')
    ∧ rooms (undo st') = Some initialRooms.
Proof.
  intros st.
  apply (toggle_lock_inverts st Scenario.roomB initialRooms); reflexivity.
Defined.

End InspectorFacts.

(** ** Saving and loading *)

Module SaveFacts.
Import App Writes Geometry Tidy Files Stored Save Load NumberFacts HistoryFacts
       LockFacts LoadFacts TidyFacts.

Lemma sanitizeFeature_featureJson f :
  sanitizeFeature (featureJson f) = Ok (roundedFeature f).
Proof. destruct f as [id [] [] position width]; reflexivity. Qed.

Lemma traverse_featureJson fs :
  traverse sanitizeFeature (featureJson <$> fs) = Ok (roundedFeature <$> fs).
Proof.
  induction fs as [|f fs IH]; [done|]. cbn [fmap list_fmap traverse].
  by rewrite sanitizeFeature_featureJson, IH.
Qed.

Lemma isRoomRecord_roomJson r : isRoomRecord (roomJson r) = Ok true.
Proof. destruct r as [? ? ? ? ? ? ? ? ? [b|]]; reflexivity. Qed.

Lemma sanitizeRoom_roomJson r : sanitizeRoom (roomJson r) = Ok (reloaded r).
Proof.
  destruct r as [id x y width height name color zIndex fs [b|]].
  - transitivity
      (features ← traverse sanitizeFeature (featureJson <$> fs);
       Ok (Room.Build id (Math_round x) (Math_round y) (Math_round width)
             (Math_round height) name color zIndex features (Some b)));
      [reflexivity|]. by rewrite traverse_featureJson.
  - transitivity
      (features ← traverse sanitizeFeature (featureJson <$> fs);
       Ok (Room.Build id (Math_round x) (Math_round y) (Math_round width)
             (Math_round height) name color zIndex features (Some false)));
      [reflexivity|]. by rewrite traverse_featureJson.
Qed.

Lemma sanitizedRooms_handleSave rs :
  sanitizedRooms (Some (handleSave rs)) = Ok (reloaded <$> rs).
Proof.
  unfold handleSave. cbn [sanitizedRooms].
  assert (Hevery : every isRoomRecord (roomJson <$> rs) = Ok true).
  { induction rs as [|r rs IH]; [done|]. cbn [fmap list_fmap every].
    by rewrite isRoomRecord_roomJson. }
  rewrite Hevery. cbn [mbind result_bind].
  induction rs as [|r rs IH]; [done|]. cbn [fmap list_fmap traverse].
  rewrite sanitizeRoom_roomJson. cbn [mbind result_bind].
  rewrite IH; [done|]. cbn [fmap list_fmap every] in Hevery.
  by rewrite isRoomRecord_roomJson in Hevery.
Qed.

Lemma reloaded_exact r : exact r -> reloaded r = r.
Proof.
  destruct r as [id x y width height name color zIndex fs locked].
  unfold exact. cbn [Room.x Room.y Room.width Room.height Room.features Room.locked].
  intros ([nx ->] & [ny ->] & [nw ->] & [nh ->] & Hfs & [b ->]).
  unfold reloaded. cbn. rewrite !Math_round_inject. f_equal.
  induction Hfs as [|f fs [n Hn] _ IH]; [done|]. cbn [fmap list_fmap]. rewrite IH.
  f_equal. destruct f as [fid ftype fwall fposition fwidth]. cbn in Hn. subst fwidth.
  unfold roundedFeature. cbn. by rewrite Math_round_inject.
Qed.

(** A plan that [handleSave] writes is never rejected by the loader: it
    loads without an alert, as one appended history entry, and gives the
    saved rooms with the rectangles and feature widths rounded to
    integers and [locked] made a boolean; identifiers, names, colours,
    layers and the positions of the features are as saved. *)
Theorem saved_plan_loads (saved : list Room.t) (st : AppState) :
  is_Some (rooms st) ->
  ∃ st',
    onload (Some (handleSave saved)) st = Some (st', [])
    ∧ rooms st' = Some (reloaded <$> saved)
    ∧ hist st' = pushed (reloaded <$> saved) (hist st)
    ∧ positions (reloaded <$> saved) = positions saved
    ∧ Room.id <$> (reloaded <$> saved) = Room.id <$> saved.
Proof.
  intros Hrooms. unfold onload. rewrite sanitizedRooms_handleSave.
  rewrite setRooms_value by done. cbn [mbind option_bind].
  eexists. split; [done|].
  split; [apply (state_pushed (reloaded <$> saved)); by apply in_range_state|].
  split; [done|]. split.
  - unfold positions. rewrite <- list_fmap_compose. apply list_fmap_ext.
    intros i r _. cbn. rewrite <- list_fmap_compose. by apply list_fmap_ext.
  - rewrite <- list_fmap_compose. by apply list_fmap_ext.
Qed.

Lemma saved_plan_loads_witness :
  ∃ st',
    onload (Some (handleSave [hall (3 # 2)])) Scenario.start = Some (st', [])
    ∧ rooms st' = Some (reloaded <$> [hall (3 # 2)])
    ∧ hist st' = pushed (reloaded <$> [hall (3 # 2)]) (hist Scenario.start)
    ∧ positions (reloaded <$> [hall (3 # 2)]) = positions [hall (3 # 2)]
    ∧ Room.id <$> (reloaded <$> [hall (3 # 2)]) = Room.id <$> [hall (3 # 2)].
Proof. apply saved_plan_loads. by eexists. Defined.

(** Saving and loading is a round trip on the rooms that the editor
    itself creates (integer rectangle and feature widths, [locked] set):
    the loader returns exactly the saved room list. *)
Theorem save_load_round_trip (saved : list Room.t) :
  Forall exact saved -> sanitizedRooms (Some (handleSave saved)) = Ok saved.
Proof.
  intros Hexact. rewrite sanitizedRooms_handleSave. f_equal.
  rewrite <- (list_fmap_id saved) at 2. apply list_fmap_ext.
  intros i r Hi. apply reloaded_exact.
  rewrite Forall_forall in Hexact. apply Hexact. by eapply list_elem_of_lookup_2.
Qed.

Lemma save_load_round_trip_witness :
  sanitizedRooms (Some (handleSave [Scenario.roomA_moved; hall (1 # 2)]))
  = Ok [Scenario.roomA_moved; hall (1 # 2)].
Proof.
  apply save_load_round_trip.
  repeat constructor; cbn; try (by eexists); by exists 41%Z.
Defined.





End SaveFacts.

(** ** Features on their walls, the drawn room, feature edits *)

Module RenderFacts.
Import App Pointer Writes Edit Inspector Render HistoryFacts StepFacts DrawFacts
       LockFacts EditFacts InspectorFacts.
#[local] Open Scope Q_scope.


(** A draw gesture that creates a room leaves that room selected, and
    the select tool active, when the identifier of the room is fresh. *)
Theorem drawn_room_is_selected
    (e : MouseEvent.t) (uuid : string) (st : AppState) (startPoint : Point.t)
    (rs : list Room.t) :
  isPanning st = false ->
  Action.type (actionState st) = drawing ->
  Action.startPoint (actionState st) = Some startPoint ->
  rooms st = Some rs -> uuid ∉ Room.id <$> rs ->
  let room := newRoom uuid rs startPoint (snapPoint (getMouseWorldPos e st)) in
  GRID_SIZE <= Room.width room -> GRID_SIZE <= Room.height room ->
  ∃ st',
    handleMouseUp e uuid st = Some st'
    ∧ rooms st' = Some (rs ++ [room])
    ∧ selectedRoom st' = Some room
    ∧ mode st' = select ∧ drawingPreview st' = None
    ∧ actionState st' = Action.idle.
Proof.
  intros Hpan Hty Hsp Hrs Hfresh room Hw Hh.
  rewrite (handleMouseUp_drawing e uuid st startPoint rs) by done. fold room.
  apply ge_true in Hw, Hh. rewrite Hw, Hh. cbn [andb].
  eexists. split; [done|].
  assert (Hrooms : rooms (setActionState Action.idle
                     (setMode select (setDrawingPreview None
                        (setSelectedRoomId (Some uuid)
                           (set_hist (pushed (rs ++ [room]) (hist st)) st)))))
                   = Some (rs ++ [room])).
  { apply (state_pushed (rs ++ [room])). apply in_range_state. by exists rs. }
  split; [exact Hrooms|]. split; [|done].
  unfold selectedRoom. rewrite Hrooms.
  cbn [mbind option_bind selectedRoomId setActionState setMode setDrawingPreview
       setSelectedRoomId].
  rewrite list_find_app_r.
  - cbn. by rewrite decide_True.
  - apply list_find_None, Forall_forall. intros r Hr Hid. apply Hfresh.
    rewrite <- Hid. by apply list_elem_of_fmap_2.
Qed.

Lemma drawn_room_is_selected_witness :
  let st := handleMouseDown (Scenario.primary 10 10) (setMode draw Scenario.start) in
  let room := newRoom "room-3" initialRooms (Point.Build 10 10)
                (snapPoint (getMouseWorldPos (Scenario.primary 110 110) st)) in
  ∃ st',
    handleMouseUp (Scenario.primary 110 110) "room-3" st = Some st'
    ∧ rooms st' = Some (initialRooms ++ [room])
    ∧ selectedRoom st' = Some room
    ∧ mode st' = select ∧ drawingPreview st' = None
    ∧ actionState st' = Action.idle.
Proof.
  intros st room.
  apply (drawn_room_is_selected (Scenario.primary 110 110) "room-3" st
           (Point.Build 10 10) initialRooms); try reflexivity; try discriminate.
  intros Hin. repeat (apply elem_of_cons in Hin as [Hin|Hin]; [discriminate Hin|]).
  by apply elem_of_nil in Hin.
Defined.



End RenderFacts.
